(** * Student records store (Assignment_2.py): model and properties

    The program keeps student records in the SQLite file [students.db]
    through Python's [sqlite3] module and drives the store from a text
    menu.  This development embeds

    - the Python text functions the menu uses ([str.strip], [str.lower],
      [int] on a string),
    - the part of [sqlite3] the program calls: [connect], [execute] for the
      five SQL statements that occur in the source, [commit], [close],
    - the six store functions and the menu loop of [main],

    and states the properties of the store over that embedding.

    Conventions of the model.
    - Python [str] values are strings of 8-bit characters, read as the code
      points U+0000 to U+00FF.
    - Python [int] is [Z].  SQLite INTEGER is a signed 64-bit integer; the
      driver raises [OverflowError] when it binds a Python [int] outside that
      range, and row ids stop at [MAX_ROWID].
    - The backing file holds at most the table [students]; a world records
      the file, the open connections, and the terminal (lines still to be
      read, items written so far).
    - Failures of the operating system (file cannot be opened, disk full)
      are not part of the model.
    - The locks SQLite takes on the file are not part of the model: a
      connection left inside a transaction by a failed call would make the
      writes of other connections raise "database is locked".  Properties
      of calls that write are stated for worlds in which no open
      connection is inside a transaction ([no_open_transaction]).
    - Properties of what a call returns or stores are stated for files whose
      table has the columns of [setup_table] ([well_formed]), and, where a
      row id is assigned, for tables whose largest row id is below
      [MAX_ROWID]. *)

From Stdlib Require Import ZArith String Ascii List.
From stdpp Require Import base option list gmap strings pretty sorting.

Local Open Scope string_scope.
Local Open Scope list_scope.
Local Open Scope Z_scope.

(** ** Python text functions *)

Module PyStr.

(** [str.isspace] on one character (code points below 256). *)
Definition is_space (c : ascii) : bool :=
  let n := N_of_ascii c in
  (((9 <=? n) && (n <=? 13)) || ((28 <=? n) && (n <=? 32))
   || (n =? 133) || (n =? 160))%N.

Fixpoint lstrip (s : string) : string :=
  match s with
  | EmptyString => EmptyString
  | String c s' => if is_space c then lstrip s' else s
  end.

Fixpoint rstrip (s : string) : string :=
  match s with
  | EmptyString => EmptyString
  | String c s' =>
      match rstrip s' with
      | EmptyString => if is_space c then EmptyString else String c EmptyString
      | r => String c r
      end
  end.

(** [s.strip()] *)
Definition strip (s : string) : string := rstrip (lstrip s).

Definition lower_char (c : ascii) : ascii :=
  let n := N_of_ascii c in
  if (((65 <=? n) && (n <=? 90))
      || ((192 <=? n) && (n <=? 222) && negb (n =? 215)))%N
  then ascii_of_N (n + 32) else c.

(** [s.lower()] *)
Fixpoint lower (s : string) : string :=
  match s with
  | EmptyString => EmptyString
  | String c s' => String (lower_char c) (lower s')
  end.

Definition digit_val (c : ascii) : option Z :=
  let n := N_of_ascii c in
  if ((48 <=? n) && (n <=? 57))%N then Some (Z.of_N (n - 48)) else None.

(** Decimal digits, single underscores allowed between two digits.
    [prev] tells whether the previous character was a digit. *)
Fixpoint parse_digits (acc : Z) (prev : bool) (s : string) : option Z :=
  match s with
  | EmptyString => if prev then Some acc else None
  | String c s' =>
      match digit_val c with
      | Some d => parse_digits (10 * acc + d) true s'
      | None =>
          if Ascii.eqb c "_"%char && prev then parse_digits acc false s'
          else None
      end
  end.

(** The whitespace [int] skips around a number: tab to carriage return and
    the space, and U+0085 and U+00A0.  Unlike [str.strip] it does not skip
    U+001C to U+001F. *)
Definition is_int_space (c : ascii) : bool :=
  let n := N_of_ascii c in
  (((9 <=? n) && (n <=? 13)) || (n =? 32) || (n =? 133) || (n =? 160))%N.

Fixpoint lstrip_by (sp : ascii -> bool) (s : string) : string :=
  match s with
  | EmptyString => EmptyString
  | String c s' => if sp c then lstrip_by sp s' else s
  end.

Fixpoint rstrip_by (sp : ascii -> bool) (s : string) : string :=
  match s with
  | EmptyString => EmptyString
  | String c s' =>
      match rstrip_by sp s' with
      | EmptyString => if sp c then EmptyString else String c EmptyString
      | r => String c r
      end
  end.

(** Largest number of digits [int] converts ([sys.int_max_str_digits]). *)
Definition INT_MAX_STR_DIGITS : N := 4300.

(** Number of decimal digits in [s], leading zeros included. *)
Fixpoint count_digits (s : string) : N :=
  match s with
  | EmptyString => 0
  | String c s' =>
      match digit_val c with
      | Some _ => N.succ (count_digits s')
      | None => count_digits s'
      end
  end%N.

(** [int(s)] for a string [s]: [None] stands for [ValueError], raised for
    a text that is not an integer literal and for one of more than
    [INT_MAX_STR_DIGITS] digits. *)
Definition py_int (s : string) : option Z :=
  let t := rstrip_by is_int_space (lstrip_by is_int_space s) in
  if (INT_MAX_STR_DIGITS <? count_digits t)%N then None
  else
    match t with
    | String "+"%char r => parse_digits 0 false r
    | String "-"%char r => Z.opp <$> parse_digits 0 false r
    | r => parse_digits 0 false r
    end.

End PyStr.

(** ** Values *)

(** Python values that cross the store's interface. *)
Inductive pyval :=
| PyNone
| PyInt (z : Z)
| PyStr (s : string).

(** SQLite storage classes that occur. *)
Inductive sqlval :=
| SqlNull
| SqlInteger (z : Z)
| SqlText (s : string).

(** Exceptions. *)
Inductive exn :=
| OperationalError (msg : string)
| IntegrityError (msg : string)
| OverflowError (msg : string)
| ProgrammingError (msg : string)
| ValueError (msg : string)
| EOFError.

(** Result of a computation that may raise. *)
Inductive result (A : Type) :=
| Ok (a : A)
| Raise (e : exn).
Arguments Ok {A} a.
Arguments Raise {A} e.

#[global] Instance result_ret : MRet result := @Ok.
#[global] Instance result_bind : MBind result := fun A B f m =>
  match m with
  | Ok a => f a
  | Raise e => Raise e
  end.

#[global] Instance pyval_eq_dec : EqDecision pyval.
Proof. solve_decision. Defined.
#[global] Instance sqlval_eq_dec : EqDecision sqlval.
Proof. solve_decision. Defined.

(** ** The SQLite engine, as far as the program uses it *)

Module Sqlite.

Definition MIN_INT64 : Z := - 2 ^ 63.
Definition MAX_ROWID : Z := 2 ^ 63 - 1.

Definition in_int64 (z : Z) : bool := (MIN_INT64 <=? z) && (z <=? MAX_ROWID).

Inductive affinity := INTEGER | TEXT.

Record column := Column {
  col_name : string;
  col_affinity : affinity;
  col_primary_key : bool;
  col_not_null : bool
}.

(** One stored row of [students]; the row id is the key under which the
    row is stored and is what the column [id] reads. *)
Record row := Row {
  r_name : sqlval;
  r_grade : sqlval;
  r_email : sqlval
}.

(** A table: its declared columns and its rows by row id. *)
Record table := Table {
  columns : list column;
  rows : gmap Z row
}.

(** Content of the file: the table [students] when it has been created. *)
Definition database : Type := option table.

(** A row as [fetchall] hands it to Python: [(id, name, grade, email)]. *)
Definition pyrow : Type := pyval * pyval * pyval * pyval.

(** The statements of the source, with their parameters. *)
Inductive statement :=
| CREATE_TABLE_IF_NOT_EXISTS (cols : list column)
| INSERT_INTO (name grade email : pyval)
| SELECT_ALL
| UPDATE_SET_WHERE_ID (name grade email : pyval) (student_id : Z)
| DELETE_WHERE_ID (student_id : Z).

(** INSERT, UPDATE and DELETE: the driver opens a transaction before them. *)
Definition is_dml (st : statement) : bool :=
  match st with
  | INSERT_INTO _ _ _ | UPDATE_SET_WHERE_ID _ _ _ _ | DELETE_WHERE_ID _ => true
  | _ => false
  end.

(** Binding a Python value to a [?] placeholder. *)
Definition bind_param (v : pyval) : result sqlval :=
  match v with
  | PyNone => Ok SqlNull
  | PyInt z =>
      if in_int64 z then Ok (SqlInteger z)
      else Raise (OverflowError "Python int too large to convert to SQLite INTEGER")
  | PyStr s => Ok (SqlText s)
  end.

(** Reading a stored value back into Python. *)
Definition to_python (v : sqlval) : pyval :=
  match v with
  | SqlNull => PyNone
  | SqlInteger z => PyInt z
  | SqlText s => PyStr s
  end.

(** Column affinity on storing: a TEXT column keeps an integer as its
    decimal text.  No statement of the program stores into [id]. *)
Definition apply_affinity (a : affinity) (v : sqlval) : sqlval :=
  match a, v with
  | TEXT, SqlInteger z => SqlText (pretty z)
  | _, _ => v
  end.

Definition is_null (v : sqlval) : bool :=
  match v with SqlNull => true | _ => false end.

(** Value stored in column [cname], after affinity and NOT NULL. *)
Definition store_field (cols : list column) (cname : string) (v : sqlval)
  : result sqlval :=
  match List.find (fun c => String.eqb (col_name c) cname) cols with
  | None => Raise (OperationalError ("table students has no column named " +:+ cname))
  | Some c =>
      let v' := apply_affinity (col_affinity c) v in
      if col_not_null c && is_null v'
      then Raise (IntegrityError ("NOT NULL constraint failed: students." +:+ cname))
      else Ok v'
  end.

Definition store_row (cols : list column) (n g e : sqlval) : result row :=
  n' ← store_field cols "name" n;
  g' ← store_field cols "grade" g;
  e' ← store_field cols "email" e;
  Ok (Row n' g' e').

(** Largest element of a list of row ids. *)
Fixpoint list_max (l : list Z) : option Z :=
  match l with
  | [] => None
  | k :: l' => Some (match list_max l' with
                     | None => k
                     | Some m => Z.max k m
                     end)
  end.

Definition rowids (rs : gmap Z row) : list Z := (map_to_list rs).*1.

Definition max_rowid (rs : gmap Z row) : option Z := list_max (rowids rs).

(** Row id of a row inserted without an explicit [id] (INTEGER PRIMARY KEY
    without AUTOINCREMENT): 1 in an empty table, otherwise one more than
    the largest row id in the table.  At [MAX_ROWID] SQLite probes unused
    ids at random and reports SQLITE_FULL when the probe fails; the model
    takes that outcome. *)
Definition next_rowid (rs : gmap Z row) : result Z :=
  match max_rowid rs with
  | None => Ok 1
  | Some m =>
      if m <? MAX_ROWID then Ok (m + 1)
      else Raise (OperationalError "database or disk is full")
  end.

Definition rowid_le (a b : Z * row) : Prop := a.1 <= b.1.

#[global] Instance rowid_le_dec a b : Decision (rowid_le a b).
Proof. unfold rowid_le. apply _. Defined.

(** Full scan of the table, in row id order. *)
Definition scan (rs : gmap Z row) : list (Z * row) :=
  merge_sort rowid_le (map_to_list rs).

Definition fetch (kr : Z * row) : pyrow :=
  (PyInt kr.1, to_python (r_name kr.2), to_python (r_grade kr.2),
   to_python (r_email kr.2)).

Definition no_such_table {A} : result A :=
  Raise (OperationalError "no such table: students").

(** One statement on the content [d]: the new content and the result
    rows.  A statement that raises leaves the content as it was. *)
Definition run (st : statement) (d : database)
  : result (database * list pyrow) :=
  match st with
  | CREATE_TABLE_IF_NOT_EXISTS cols =>
      match d with
      | Some t => Ok (Some t, [])
      | None => Ok (Some (Table cols ∅), [])
      end
  | INSERT_INTO name grade email =>
      match d with
      | None => no_such_table
      | Some t =>
          n ← bind_param name;
          g ← bind_param grade;
          e ← bind_param email;
          r ← store_row (columns t) n g e;
          k ← next_rowid (rows t);
          Ok (Some (Table (columns t) (<[k := r]> (rows t))), [])
      end
  | SELECT_ALL =>
      match d with
      | None => no_such_table
      | Some t => Ok (Some t, fetch <$> scan (rows t))
      end
  | UPDATE_SET_WHERE_ID name grade email student_id =>
      match d with
      | None => no_such_table
      | Some t =>
          n ← bind_param name;
          g ← bind_param grade;
          e ← bind_param email;
          _ ← bind_param (PyInt student_id);
          match rows t !! student_id with
          | None => Ok (Some t, [])
          | Some _ =>
              r ← store_row (columns t) n g e;
              Ok (Some (Table (columns t) (<[student_id := r]> (rows t))), [])
          end
      end
  | DELETE_WHERE_ID student_id =>
      match d with
      | None => no_such_table
      | Some t =>
          _ ← bind_param (PyInt student_id);
          Ok (Some (Table (columns t) (delete student_id (rows t))), [])
      end
  end.

End Sqlite.

(** ** The world and the monad of Python computations *)

(** What [print] and the prompt of [input] write to the terminal.  A printed
    row is recorded as the tuple itself, not as its [repr] text. *)
Inductive output :=
| PrintStr (s : string)
| PrintRow (r : Sqlite.pyrow)
| Prompt (s : string).

(** An open connection: [txn] is the working content of its open
    transaction, if it has one. *)
Record connection := Connection {
  txn : option Sqlite.database
}.

Record world := World {
  file : Sqlite.database;          (** committed content of students.db *)
  conns : gmap nat connection;     (** connections that are open *)
  stdin : list string;             (** lines the user will type *)
  stdout : list output             (** terminal output, oldest first *)
}.

Definition py (A : Type) : Type := world -> result A * world.

#[global] Instance py_ret : MRet py := fun A a w => (Ok a, w).
#[global] Instance py_bind : MBind py := fun A B f m w =>
  match m w with
  | (Ok a, w') => f a w'
  | (Raise e, w') => (Raise e, w')
  end.

Definition raise {A} (e : exn) : py A := fun w => (Raise e, w).

(** [try: body except ValueError: handler] *)
Definition try_except_ValueError {A} (body handler : py A) : py A := fun w =>
  match body w with
  | (Raise (ValueError _), w') => handler w'
  | r => r
  end.

(** [for x in xs: f(x)] *)
Fixpoint for_each {A} (xs : list A) (f : A -> py unit) : py unit :=
  match xs with
  | [] => mret tt
  | x :: xs' => f x ;; for_each xs' f
  end.

Definition set_file (d : Sqlite.database) (w : world) : world :=
  World d (conns w) (stdin w) (stdout w).
Definition set_conns (cs : gmap nat connection) (w : world) : world :=
  World (file w) cs (stdin w) (stdout w).

(** ** Built-in [print], [input], [int] *)

Definition print (s : string) : py unit := fun w =>
  (Ok tt, World (file w) (conns w) (stdin w) (stdout w ++ [PrintStr s])).

Definition print_row (r : Sqlite.pyrow) : py unit := fun w =>
  (Ok tt, World (file w) (conns w) (stdin w) (stdout w ++ [PrintRow r])).

Definition input (prompt : string) : py string := fun w =>
  let out := (stdout w ++ [Prompt prompt]) in
  match stdin w with
  | [] => (Raise EOFError, World (file w) (conns w) [] out)
  | l :: ls => (Ok l, World (file w) (conns w) ls out)
  end.

Definition int (s : string) : py Z :=
  match PyStr.py_int s with
  | Some z => mret z
  | None => raise (ValueError "invalid literal for int() with base 10")
  end.

(** ** The driver: [sqlite3.connect], [execute], [commit], [close] *)

Module Sqlite3.

Definition closed {A} : py A :=
  raise (ProgrammingError "Cannot operate on a closed database.").

(** A new connection object; the world has the one file the program names. *)
Definition connect (path : string) : py nat := fun w =>
  let h := fresh (dom (conns w)) in
  (Ok h, set_conns (<[h := Connection None]> (conns w)) w).

(** What connection [c] reads: its transaction, else the file. *)
Definition current (c : connection) (w : world) : Sqlite.database :=
  match txn c with
  | Some d => d
  | None => file w
  end.

(** Compiling the statement: the table must exist, except for CREATE. *)
Definition prepare (st : Sqlite.statement) (d : Sqlite.database) : result unit :=
  match st, d with
  | Sqlite.CREATE_TABLE_IF_NOT_EXISTS _, _ => Ok tt
  | _, None => Sqlite.no_such_table
  | _, Some _ => Ok tt
  end.

(** [connection.execute(sql, params)], returning the rows of the cursor.
    The statement is compiled; before INSERT, UPDATE and DELETE a
    transaction is opened if none is open; then parameters are bound and
    the statement runs.  Outside a transaction the effect is written to
    the file at once. *)
Definition execute (h : nat) (st : Sqlite.statement) : py (list Sqlite.pyrow) := fun w =>
  match conns w !! h with
  | None => closed w
  | Some c =>
      let d := current c w in
      match prepare st d with
      | Raise e => (Raise e, w)
      | Ok _ =>
          let c' := if Sqlite.is_dml st then Connection (Some d) else c in
          match Sqlite.run st d with
          | Raise e => (Raise e, set_conns (<[h := c']> (conns w)) w)
          | Ok (d', rs) =>
              match txn c' with
              | Some _ => (Ok rs, set_conns (<[h := Connection (Some d')]> (conns w)) w)
              | None => (Ok rs, set_file d' w)
              end
          end
      end
  end.

(** [connection.commit()] *)
Definition commit (h : nat) : py unit := fun w =>
  match conns w !! h with
  | None => closed w
  | Some c =>
      match txn c with
      | Some d => (Ok tt, set_conns (<[h := Connection None]> (conns w)) (set_file d w))
      | None => (Ok tt, w)
      end
  end.

(** [connection.close()]: an open transaction is dropped. *)
Definition close (h : nat) : py unit := fun w =>
  match conns w !! h with
  | None => (Ok tt, w)
  | Some _ => (Ok tt, set_conns (delete h (conns w)) w)
  end.

End Sqlite3.

(** ** Assignment_2.py *)

Import Sqlite.

Definition DB_FILE : string := "students.db".

Definition connect_db : py nat := Sqlite3.connect DB_FILE.

(** The columns of
    [CREATE TABLE IF NOT EXISTS students (id INTEGER PRIMARY KEY,
     name TEXT NOT NULL, grade TEXT NOT NULL, email TEXT NOT NULL)]. *)
Definition students_columns : list column :=
  [ Column "id" INTEGER true false;
    Column "name" TEXT false true;
    Column "grade" TEXT false true;
    Column "email" TEXT false true ].

Definition setup_table : py pyval :=
  database ← connect_db;
  _ ← Sqlite3.execute database (CREATE_TABLE_IF_NOT_EXISTS students_columns);
  _ ← Sqlite3.commit database;
  _ ← Sqlite3.close database;
  mret PyNone.

Definition add_student (name grade email : pyval) : py pyval :=
  database ← connect_db;
  _ ← Sqlite3.execute database (INSERT_INTO name grade email);
  _ ← Sqlite3.commit database;
  _ ← Sqlite3.close database;
  mret PyNone.

Definition view_students_db : py pyval :=
  database ← connect_db;
  cursor ← Sqlite3.execute database SELECT_ALL;
  let rows := cursor in
  _ ← for_each rows print_row;
  _ ← Sqlite3.close database;
  mret PyNone.

Definition update_student (student_id : Z) (name grade email : pyval) : py pyval :=
  database ← connect_db;
  _ ← Sqlite3.execute database (UPDATE_SET_WHERE_ID name grade email student_id);
  _ ← Sqlite3.commit database;
  _ ← Sqlite3.close database;
  mret PyNone.

Definition delete_student (student_id : Z) : py pyval :=
  database ← connect_db;
  _ ← Sqlite3.execute database (DELETE_WHERE_ID student_id);
  _ ← Sqlite3.commit database;
  _ ← Sqlite3.close database;
  mret PyNone.

Definition newline : string := String (ascii_of_N 10) EmptyString.

Definition print_menu : py unit :=
  print (newline +:+ "--- Student Database Menu ---") ;;
  print "1) Add students" ;;
  print "2) View students" ;;
  print "3) Update students" ;;
  print "4) Delete Students" ;;
  print "5) Exit".

Definition user_choice : py string :=
  choice ← input "Choose an option (1-5): ";
  mret (PyStr.strip choice).

(** [input(prompt).strip()] *)
Definition input_strip (prompt : string) : py string :=
  s ← input prompt;
  mret (PyStr.strip s).

(** One pass through the body of [while not done]; the result is the value
    of [done] at the end of the pass. *)
Definition menu_pass : py bool :=
  print_menu ;;
  choice ← user_choice;
  if String.eqb choice "1" then
    name ← input_strip "Name: ";
    grade ← input_strip "Grade: ";
    email ← input_strip "Email: ";
    _ ← add_student (PyStr name) (PyStr grade) (PyStr email);
    print "Student Added" ;;
    mret false
  else if String.eqb choice "2" then
    _ ← view_students_db;
    mret false
  else if String.eqb choice "3" then
    try_except_ValueError
      (raw ← input_strip "Student ID to update: ";
       student_id ← int raw;
       name ← input_strip "New name: ";
       grade ← input_strip "New grade: ";
       email ← input_strip "New email: ";
       _ ← update_student student_id (PyStr name) (PyStr grade) (PyStr email);
       print "Student updated.")
      (print "Invalid ID. Must be a number.") ;;
    mret false
  else if String.eqb choice "4" then
    try_except_ValueError
      (raw ← input_strip "Student ID to delete: ";
       student_id ← int raw;
       confirm ← input ("Delete student " +:+ pretty student_id +:+ "? (y/n): ");
       let confirm := PyStr.lower (PyStr.strip confirm) in
       if String.eqb confirm "y" then
         _ ← delete_student student_id;
         print "Student deleted."
       else
         print "Delete canceled.")
      (print "Invalid ID. Must be a number.") ;;
    mret false
  else if String.eqb choice "5" then
    print "Exiting Program..." ;;
    mret true
  else
    print "Invalid input, Try again." ;;
    mret false.

(** The loop of [main], with [fuel] passes at most; [None] when the fuel
    runs out before the loop ends. *)
Fixpoint main_loop (fuel : nat) (w : world) : option (result pyval * world) :=
  match fuel with
  | O => None
  | S fuel' =>
      match menu_pass w with
      | (Ok true, w') => Some (Ok PyNone, w')
      | (Ok false, w') => main_loop fuel' w'
      | (Raise e, w') => Some (Raise e, w')
      end
  end.

(** [main()]: every pass reads a line, so one pass more than there are
    lines is enough. *)
Definition main (w : world) : option (result pyval * world) :=
  match setup_table w with
  | (Ok _, w') => main_loop (S (length (stdin w'))) w'
  | (Raise e, w') => Some (Raise e, w')
  end.

(** ** Vocabulary of the properties *)

(** The calls of the record store. *)
Inductive call :=
| Create (name grade email : pyval)
| ReadAll
| Update (student_id : Z) (name grade email : pyval)
| Delete (student_id : Z).

Definition perform (c : call) : py pyval :=
  match c with
  | Create name grade email => add_student name grade email
  | ReadAll => view_students_db
  | Update student_id name grade email => update_student student_id name grade email
  | Delete student_id => delete_student student_id
  end.

(** The rows persisted in the file. *)
Definition persisted (w : world) : gmap Z row :=
  match file w with
  | Some t => rows t
  | None => ∅
  end.

(** The persisted record with identifier [k]. *)
Definition stored (w : world) (k : Z) : option row := persisted w !! k.

(** The persisted records as a full scan lists them. *)
Definition records (w : world) : list pyrow := fetch <$> scan (persisted w).

(** The identifier of a listed record. *)
Definition id_of (r : pyrow) : pyval := r.1.1.1.

(** Listed records in ascending order of identifier, no identifier twice. *)
Definition id_lt (a b : pyrow) : Prop :=
  match id_of a, id_of b with
  | PyInt x, PyInt y => x < y
  | _, _ => False
  end.

Definition ascending (l : list pyrow) : Prop := StronglySorted id_lt l.

(** Identifiers persisted in [w'] that were not persisted in [w]. *)
Definition new_ids (w w' : world) : list Z :=
  elements (dom (persisted w') ∖ dom (persisted w)).

(** The table [students] exists. *)
Definition schema_exists (w : world) : Prop := is_Some (file w).

(** The file is one that SQLite and [setup_table] produce: the table, when
    it exists, has the columns of [setup_table], and row ids are 64-bit. *)
Definition well_formed (w : world) : Prop :=
  match file w with
  | Some t =>
      columns t = students_columns /\
      map_Forall (fun k _ => in_int64 k = true) (rows t)
  | None => True
  end.

(** No open connection is inside a transaction, so none holds the write
    lock of the file. *)
Definition no_open_transaction (w : world) : Prop :=
  map_Forall (fun _ c => txn c = None) (conns w).

(** No stored field is NULL. *)
Definition populated (r : row) : Prop :=
  r_name r <> SqlNull /\ r_grade r <> SqlNull /\ r_email r <> SqlNull.

Definition all_populated (w : world) : Prop :=
  map_Forall (fun _ r => populated r) (persisted w).

(** Calls issued one after the other, as Python statements in sequence: an
    exception ends the sequence.  The result lists the identifiers that the
    Create calls added, in order. *)
Fixpoint assigned_ids (cs : list call) (w : world) : list Z :=
  match cs with
  | [] => []
  | c :: cs' =>
      match perform c w with
      | (Ok _, w') =>
          match c with
          | Create _ _ _ => new_ids w w' ++ assigned_ids cs' w'
          | _ => assigned_ids cs' w'
          end
      | (Raise _, _) => []
      end
  end.

(** No Delete of the sequence names the largest identifier persisted at the
    moment it runs. *)
Fixpoint spares_largest (cs : list call) (w : world) : Prop :=
  match cs with
  | [] => True
  | c :: cs' =>
      match c with
      | Delete k => max_rowid (persisted w) <> Some k
      | _ => True
      end /\ spares_largest cs' (perform c w).2
  end.

(** Every Create of the sequence finds the largest identifier below
    [MAX_ROWID] at the moment it runs. *)
Fixpoint below_ceiling (cs : list call) (w : world) : Prop :=
  match cs with
  | [] => True
  | c :: cs' =>
      match c with
      | Create _ _ _ => max_rowid (persisted w) <> Some MAX_ROWID
      | _ => True
      end /\ below_ceiling cs' (perform c w).2
  end.

(** The world after the calls [cs], each run in the world the previous one
    left, whether it returned or raised. *)
Fixpoint after (cs : list call) (w : world) : world :=
  match cs with
  | [] => w
  | c :: cs' => after cs' (perform c w).2
  end.

(** [n] calls of [m] in sequence. *)
Fixpoint call_times (n : nat) (m : py pyval) : py pyval :=
  match n with
  | O => mret PyNone
  | S n' => _ ← m; call_times n' m
  end.

(** A text that [int] reads as an integer greater than zero. *)
Definition positive_integer_text (raw : string) : Prop :=
  exists z, PyStr.py_int raw = Some z /\ 0 < z.

(** The lines [print_menu] writes. *)
Definition menu_lines : list output :=
  [ PrintStr (newline +:+ "--- Student Database Menu ---");
    PrintStr "1) Add students";
    PrintStr "2) View students";
    PrintStr "3) Update students";
    PrintStr "4) Delete Students";
    PrintStr "5) Exit" ].

(** A computation that does not put lines back on the input. *)
Definition reads_forward {A} (m : py A) : Prop :=
  forall w, (length (stdin (m w).2) <= length (stdin w))%nat.


(** ** Vocabulary of the further properties *)




(** Every run of [m] takes a world to one related to it by [R]. *)
Definition steps_in (R : relation world) {A} (m : py A) : Prop :=
  forall w, R w (m w).2.

(** The pending input of [w'] is the rest of the pending input of [w]. *)
Definition input_left (w w' : world) : Prop := stdin w' `suffix_of` stdin w.

(** What held of [w] holds of [w']. *)
Definition keeps (I : world -> Prop) (w w' : world) : Prop := I w -> I w'.

(** A return, or one of the exceptions that [int] and [input] raise. *)
Definition from_terminal {A} (r : result A) : bool :=
  match r with
  | Ok _ => true
  | Raise (ValueError _) => true
  | Raise EOFError => true
  | Raise _ => false
  end.

(** [m] ends with the connections it started with, unless it ends in an
    exception of the store. *)
Definition tidy {A} (m : py A) : Prop :=
  forall w, from_terminal (m w).1 = true -> conns (m w).2 = conns w.

(** * Properties *)

(** ** Python text functions on examples *)

Example py_int_42 : PyStr.py_int " 42 " = Some 42.
Proof. reflexivity. Qed.

Example py_int_neg : PyStr.py_int "-5" = Some (-5).
Proof. reflexivity. Qed.

Example py_int_underscore : PyStr.py_int "1_000" = Some 1000.
Proof. reflexivity. Qed.

Example py_int_bad :
  PyStr.py_int "abc" = None /\ PyStr.py_int "" = None /\
  PyStr.py_int "1__0" = None /\ PyStr.py_int "_1" = None /\
  PyStr.py_int "1_" = None /\ PyStr.py_int "+ 5" = None /\
  PyStr.py_int "2.5" = None.
Proof. repeat split. Qed.

Example strip_lower : PyStr.lower (PyStr.strip "  Y ") = "y".
Proof. reflexivity. Qed.

(** ** The driver *)

Lemma fresh_conn_closed (w : world) : conns w !! fresh (dom (conns w)) = None.
Proof. apply not_elem_of_dom, is_fresh. Qed.


Lemma world_eta (w : world) : World (file w) (conns w) (stdin w) (stdout w) = w.
Proof. by destruct w. Qed.

(** Connect, run one INSERT, UPDATE or DELETE, commit, close. *)
Lemma dml_call (st : statement) (w : world) :
  is_dml st = true ->
  (database ← connect_db;
   _ ← Sqlite3.execute database st;
   _ ← Sqlite3.commit database;
   _ ← Sqlite3.close database;
   mret PyNone) w =
  let h := fresh (dom (conns w)) in
  match Sqlite3.prepare st (file w) with
  | Raise e => (Raise e, set_conns (<[h := Connection None]> (conns w)) w)
  | Ok _ =>
      match run st (file w) with
      | Raise e =>
          (Raise e, set_conns (<[h := Connection (Some (file w))]> (conns w)) w)
      | Ok (d', _) => (Ok PyNone, set_file d' w)
      end
  end.
Proof.
  intros Hdml. pose proof (fresh_conn_closed w) as Hh.
  unfold mbind, py_bind, connect_db, Sqlite3.connect, Sqlite3.execute. simpl.
  rewrite lookup_insert_eq. unfold Sqlite3.current. simpl.
  destruct (Sqlite3.prepare st (file w)) as [[]|e]; [|done].
  rewrite Hdml. simpl.
  destruct (run st (file w)) as [[d' rs]|e]; simpl.
  - unfold Sqlite3.commit. simpl. rewrite insert_insert_eq, lookup_insert_eq. simpl.
    unfold Sqlite3.close. simpl. rewrite insert_insert_eq, lookup_insert_eq. simpl.
    unfold set_conns, set_file. simpl.
    rewrite delete_insert_eq, delete_id by done. done.
  - by rewrite insert_insert_eq.
Qed.

Lemma for_each_print_row (rs : list pyrow) (w : world) :
  for_each rs print_row w =
  (Ok tt, World (file w) (conns w) (stdin w) (stdout w ++ (PrintRow <$> rs))).
Proof.
  revert w. induction rs as [|r rs IH]; intros w; simpl.
  - unfold mret, py_ret. by rewrite app_nil_r, world_eta.
  - unfold mbind, py_bind, print_row. rewrite IH. simpl.
    by rewrite <- app_assoc.
Qed.

(** ** The store functions, one equation each *)

Lemma setup_table_run (w : world) :
  setup_table w =
  (Ok PyNone,
   set_file (Some (match file w with
                   | Some t => t
                   | None => Table students_columns ∅
                   end)) w).
Proof.
  pose proof (fresh_conn_closed w) as Hh.
  unfold setup_table, mbind, py_bind, connect_db, Sqlite3.connect, Sqlite3.execute.
  simpl. rewrite lookup_insert_eq. unfold Sqlite3.current. simpl.
  destruct (file w) as [t|] eqn:Hf; simpl;
    unfold Sqlite3.commit, Sqlite3.close; simpl; rewrite lookup_insert_eq; simpl;
    rewrite lookup_insert_eq; unfold set_conns, set_file; simpl;
    by rewrite delete_insert_eq, delete_id.
Qed.

Lemma view_students_db_run (w : world) :
  view_students_db w =
  match file w with
  | None =>
      (Raise (OperationalError "no such table: students"),
       set_conns (<[fresh (dom (conns w)) := Connection None]> (conns w)) w)
  | Some _ =>
      (Ok PyNone,
       World (file w) (conns w) (stdin w) (stdout w ++ (PrintRow <$> records w)))
  end.
Proof.
  pose proof (fresh_conn_closed w) as Hh.
  unfold view_students_db, mbind, py_bind, connect_db, Sqlite3.connect,
    Sqlite3.execute.
  simpl. rewrite lookup_insert_eq. unfold Sqlite3.current, records, persisted. simpl.
  destruct (file w) as [t|] eqn:Hf; simpl; [|done].
  rewrite for_each_print_row. simpl.
  unfold Sqlite3.close. simpl. rewrite lookup_insert_eq.
  unfold set_conns, set_file. simpl. by rewrite delete_insert_eq, delete_id.
Qed.

Lemma add_student_run (name grade email : pyval) (w : world) :
  add_student name grade email w =
  let h := fresh (dom (conns w)) in
  match file w with
  | None =>
      (Raise (OperationalError "no such table: students"),
       set_conns (<[h := Connection None]> (conns w)) w)
  | Some _ =>
      match run (INSERT_INTO name grade email) (file w) with
      | Raise e =>
          (Raise e, set_conns (<[h := Connection (Some (file w))]> (conns w)) w)
      | Ok (d', _) => (Ok PyNone, set_file d' w)
      end
  end.
Proof.
  unfold add_student. rewrite dml_call by done. by destruct (file w).
Qed.

Lemma update_student_run (k : Z) (name grade email : pyval) (w : world) :
  update_student k name grade email w =
  let h := fresh (dom (conns w)) in
  match file w with
  | None =>
      (Raise (OperationalError "no such table: students"),
       set_conns (<[h := Connection None]> (conns w)) w)
  | Some _ =>
      match run (UPDATE_SET_WHERE_ID name grade email k) (file w) with
      | Raise e =>
          (Raise e, set_conns (<[h := Connection (Some (file w))]> (conns w)) w)
      | Ok (d', _) => (Ok PyNone, set_file d' w)
      end
  end.
Proof.
  unfold update_student. rewrite dml_call by done. by destruct (file w).
Qed.

Lemma delete_student_run (k : Z) (w : world) :
  delete_student k w =
  let h := fresh (dom (conns w)) in
  match file w with
  | None =>
      (Raise (OperationalError "no such table: students"),
       set_conns (<[h := Connection None]> (conns w)) w)
  | Some _ =>
      match run (DELETE_WHERE_ID k) (file w) with
      | Raise e =>
          (Raise e, set_conns (<[h := Connection (Some (file w))]> (conns w)) w)
      | Ok (d', _) => (Ok PyNone, set_file d' w)
      end
  end.
Proof.
  unfold delete_student. rewrite dml_call by done. by destruct (file w).
Qed.

(** ** Row ids *)

Lemma list_max_None (l : list Z) : list_max l = None <-> l = [].
Proof. destruct l; simpl; split; congruence. Qed.

Lemma list_max_Some (l : list Z) (m : Z) :
  list_max l = Some m -> m ∈ l /\ forall k, k ∈ l -> k <= m.
Proof.
  revert m. induction l as [|a l IH]; intros m; simpl; [done|].
  destruct (list_max l) as [m'|] eqn:Hl; intros [= <-].
  - destruct (IH m' eq_refl) as [Hin Hle]. split.
    + destruct (Z.max_spec a m') as [[_ ->]|[_ ->]]; [by right|by left].
    + intros k [->|Hk]%elem_of_cons; [lia|]. specialize (Hle k Hk). lia.
  - apply list_max_None in Hl as ->. split; [by left|].
    intros k [->|Hk]%elem_of_cons; [lia|]. by apply elem_of_nil in Hk.
Qed.

Lemma elem_of_rowids (rs : gmap Z row) (k : Z) : k ∈ rowids rs <-> is_Some (rs !! k).
Proof.
  unfold rowids. rewrite list_elem_of_fmap. split.
  - intros [[k' r] [-> Hin]]. apply elem_of_map_to_list in Hin. by exists r.
  - intros [r Hr]. exists (k, r). split; [done|]. by apply elem_of_map_to_list.
Qed.

Lemma max_rowid_None (rs : gmap Z row) : max_rowid rs = None <-> rs = ∅.
Proof.
  unfold max_rowid, rowids. rewrite list_max_None, <- map_to_list_empty_iff.
  split; [apply fmap_nil_inv|by intros ->].
Qed.

Lemma max_rowid_Some (rs : gmap Z row) (m : Z) :
  max_rowid rs = Some m <->
  is_Some (rs !! m) /\ forall k, is_Some (rs !! k) -> k <= m.
Proof.
  split.
  - intros [Hin Hle]%list_max_Some. split; [by apply elem_of_rowids|].
    intros k Hk. by apply Hle, elem_of_rowids.
  - intros [Hm Hle]. destruct (max_rowid rs) as [m'|] eqn:Hmax.
    + apply list_max_Some in Hmax as [Hin' Hle'].
      apply elem_of_rowids in Hin'. apply elem_of_rowids in Hm.
      specialize (Hle m' Hin'). specialize (Hle' m Hm). f_equal. lia.
    + apply max_rowid_None in Hmax as ->. rewrite lookup_empty in Hm.
      by destruct Hm.
Qed.

(** The row id SQLite picks is above every row id of the table. *)
Lemma next_rowid_above (rs : gmap Z row) (k : Z) :
  next_rowid rs = Ok k ->
  rs !! k = None /\
  (forall j, is_Some (rs !! j) -> j < k) /\
  k <= MAX_ROWID /\
  k = match max_rowid rs with Some m => m + 1 | None => 1 end.
Proof.
  unfold next_rowid. destruct (max_rowid rs) as [m|] eqn:Hmax.
  - destruct (Z.ltb_spec m MAX_ROWID) as [Hlt|]; [|done]. intros [= <-].
    apply max_rowid_Some in Hmax as [Hm Hle].
    assert (forall j, is_Some (rs !! j) -> j < m + 1) as Hall
      by (intros j Hj; specialize (Hle j Hj); lia).
    split; [|split; [done|split; [lia|done]]].
    destruct (rs !! (m + 1)) as [r|] eqn:Hr; [|done].
    specialize (Hall (m + 1) (ltac:(by exists r))). lia.
  - intros [= <-]. apply max_rowid_None in Hmax as ->.
    split; [apply lookup_empty|split; [|split; [done|done]]].
    intros j Hj. rewrite lookup_empty in Hj. by destruct Hj.
Qed.

Lemma max_rowid_insert_above (rs : gmap Z row) (k : Z) (r : row) :
  (forall j, is_Some (rs !! j) -> j < k) ->
  max_rowid (<[k := r]> rs) = Some k.
Proof.
  intros Habove. apply max_rowid_Some. split.
  - rewrite lookup_insert_eq. by eexists.
  - intros j. rewrite lookup_insert. case_decide as Hjk; [lia|].
    intros Hj. specialize (Habove j Hj). lia.
Qed.

Lemma max_rowid_overwrite (rs : gmap Z row) (k : Z) (r : row) :
  is_Some (rs !! k) -> max_rowid (<[k := r]> rs) = max_rowid rs.
Proof.
  intros Hk.
  assert (forall j, is_Some (<[k := r]> rs !! j) <-> is_Some (rs !! j)) as Hsame.
  { intros j. rewrite lookup_insert. case_decide as Hjk; [subst|done].
    split; [done|by eexists]. }
  destruct (max_rowid rs) as [m|] eqn:Hmax.
  - apply max_rowid_Some. apply max_rowid_Some in Hmax as [Hm Hle].
    split; [by apply Hsame|]. intros j Hj. by apply Hle, Hsame.
  - apply max_rowid_None in Hmax as ->. rewrite lookup_empty in Hk.
    by destruct Hk.
Qed.

Lemma max_rowid_delete_other (rs : gmap Z row) (k : Z) :
  max_rowid rs <> Some k -> max_rowid (delete k rs) = max_rowid rs.
Proof.
  intros Hne. destruct (max_rowid rs) as [m|] eqn:Hmax.
  - assert (m <> k) as Hmk by congruence.
    apply max_rowid_Some. apply max_rowid_Some in Hmax as [Hm Hle]. split.
    + by rewrite lookup_delete_ne.
    + intros j. rewrite lookup_delete. case_decide; [by intros []|apply Hle].
  - apply max_rowid_None in Hmax as ->. by rewrite delete_empty.
Qed.

(** ** The full scan *)

#[local] Instance rowid_le_total : Total rowid_le.
Proof. intros a b. unfold rowid_le. lia. Qed.

#[local] Instance rowid_le_trans : Transitive rowid_le.
Proof. intros a b c. unfold rowid_le. lia. Qed.

Lemma scan_Sorted (rs : gmap Z row) : Sorted rowid_le (scan rs).
Proof. apply Sorted_merge_sort, _. Qed.

Lemma scan_Permutation (rs : gmap Z row) : scan rs ≡ₚ map_to_list rs.
Proof. apply merge_sort_Permutation. Qed.

Lemma elem_of_scan (rs : gmap Z row) (k : Z) (r : row) :
  (k, r) ∈ scan rs <-> rs !! k = Some r.
Proof. rewrite scan_Permutation. apply elem_of_map_to_list. Qed.

(** A sorted list of the rows of a table is its scan. *)
Lemma scan_unique (rs : gmap Z row) (l : list (Z * row)) :
  Sorted rowid_le l -> l ≡ₚ map_to_list rs -> scan rs = l.
Proof.
  intros Hl Hperm. apply (Sorted_unique_strong rowid_le).
  - intros [k1 r1] [k2 r2] H1 H2 Hle Hge. unfold rowid_le in *. simpl in *.
    assert (k1 = k2) as -> by lia.
    apply elem_of_scan in H1. rewrite Hperm in H2.
    apply elem_of_map_to_list in H2. congruence.
  - apply scan_Sorted.
  - done.
  - by rewrite scan_Permutation.
Qed.

Lemma scan_empty : scan ∅ = [].
Proof. apply scan_unique; [constructor|by rewrite map_to_list_empty]. Qed.


Lemma filter_all {A} (P : A -> Prop) `{forall x, Decision (P x)} (l : list A) :
  (forall x, x ∈ l -> P x) -> filter P l = l.
Proof.
  induction l as [|a l IH]; intros Hall; [done|].
  rewrite filter_cons_True by (apply Hall; by left).
  f_equal. apply IH. intros x Hx. apply Hall. by right.
Qed.


Lemma StronglySorted_filter {A} (R : relation A) (P : A -> Prop)
    `{forall x, Decision (P x)} (l : list A) :
  StronglySorted R l -> StronglySorted R (filter P l).
Proof.
  induction 1 as [|a l Hl IH Ha]; [constructor|].
  destruct (decide (P a)).
  - rewrite filter_cons_True by done. constructor; [done|].
    apply Forall_forall. intros x [_ Hx]%list_elem_of_filter.
    by eapply Forall_forall in Ha.
  - by rewrite filter_cons_False.
Qed.

Lemma scan_delete (rs : gmap Z row) (k : Z) :
  scan (delete k rs) = filter (fun kr => kr.1 <> k) (scan rs).
Proof.
  apply scan_unique.
  - apply StronglySorted_Sorted, StronglySorted_filter.
    apply Sorted_StronglySorted; [apply _|apply scan_Sorted].
  - rewrite scan_Permutation.
    assert (filter (fun kr : Z * row => kr.1 <> k) (map_to_list (delete k rs))
            = map_to_list (delete k rs)) as Hrest.
    { apply filter_all. intros [j x] Hj%elem_of_map_to_list. simpl.
      intros ->. by rewrite lookup_delete_eq in Hj. }
    destruct (rs !! k) as [x|] eqn:Hx.
    + rewrite <- (map_to_list_delete rs k x) by done.
      by rewrite filter_cons_False, Hrest by (simpl; tauto).
    + rewrite delete_id in * by done. by rewrite Hrest.
Qed.


(** Row ids of a scan strictly increase. *)
Lemma scan_strict (rs : gmap Z row) :
  StronglySorted (fun a b : Z * row => a.1 < b.1) (scan rs).
Proof.
  pose proof (NoDup_fst_map_to_list rs) as Hnd.
  rewrite <- scan_Permutation in Hnd.
  pose proof (Sorted_StronglySorted _ _ (scan_Sorted rs)) as Hs.
  induction Hs as [|a l Hl IH Ha]; [constructor|].
  rewrite fmap_cons in Hnd. apply NoDup_cons in Hnd as [Hnotin Hnd].
  constructor; [by apply IH|].
  apply Forall_forall. intros b Hb.
  eapply Forall_forall in Ha; [|done]. unfold rowid_le in Ha.
  assert (a.1 <> b.1); [|lia].
  intros Heq. apply Hnotin. rewrite Heq. by apply list_elem_of_fmap_2.
Qed.

Lemma records_ascending (w : world) : ascending (records w).
Proof.
  unfold ascending, records.
  eapply StronglySorted_fmap; [|apply scan_strict].
  by intros [a x] [b y].
Qed.

(** ** Storing a row under the columns of [setup_table] *)


Lemma store_row_populated (n g e : sqlval) (r : row) :
  store_row students_columns n g e = Ok r -> populated r.
Proof.
  destruct n, g, e; cbv; intros [= <-]; repeat split; discriminate.
Qed.

Lemma store_row_null (n g e : sqlval) :
  n = SqlNull \/ g = SqlNull \/ e = SqlNull ->
  exists err, store_row students_columns n g e = Raise err.
Proof.
  intros Hnull. destruct n, g, e; cbv; eauto; destruct Hnull as [? | [? | ?]]; discriminate.
Qed.



(** ** Create *)

Lemma difference_fresh (D : gset Z) (k : Z) : k ∉ D -> ({[k]} ∪ D) ∖ D = {[k]}.
Proof.
  intros Hk. apply set_eq. intros x.
  rewrite elem_of_difference, elem_of_union, elem_of_singleton.
  split; [tauto|]. intros ->. tauto.
Qed.

Lemma persisted_set_file (d : database) (w : world) :
  persisted (set_file d w) = match d with Some t => rows t | None => ∅ end.
Proof. done. Qed.






(** ** ReadAll *)

Lemma to_python_inj (a b : sqlval) : to_python a = to_python b -> a = b.
Proof. destruct a, b; simpl; congruence. Qed.

Lemma fetch_inj (a b : Z * row) : fetch a = fetch b -> a = b.
Proof.
  destruct a as [j [n g e]], b as [k [n' g' e']]. unfold fetch. simpl.
  intros [= -> ->%to_python_inj ->%to_python_inj ->%to_python_inj]. done.
Qed.

Lemma elem_of_records (w : world) (k : Z) (r : row) :
  fetch (k, r) ∈ records w <-> stored w k = Some r.
Proof.
  unfold records, stored. rewrite <- elem_of_scan, list_elem_of_fmap. split.
  - intros (kr & ->%fetch_inj & Hkr). done.
  - intros Hkr. by exists (k, r).
Qed.

Lemma records_empty (w : world) : persisted w = ∅ -> records w = [].
Proof. unfold records. intros ->. by rewrite scan_empty. Qed.

(** C4 (as the code has it).  On a well-formed store whose table exists,
    [view_students_db] returns [None] and writes the persisted records to
    the terminal, one [print] per record, in ascending order of id: all of
    them and nothing else.  With no record it writes nothing and raises no
    error.  The file, the connections and the pending input are as
    before. *)
Theorem view_students_db_prints (w : world) :
  schema_exists w ->
  well_formed w ->
  view_students_db w =
    (Ok PyNone,
     World (file w) (conns w) (stdin w) (stdout w ++ (PrintRow <$> records w))) /\
  ascending (records w) /\
  (forall k r, fetch (k, r) ∈ records w <-> stored w k = Some r) /\
  (persisted w = ∅ -> view_students_db w = (Ok PyNone, w)).
Proof.
  intros [t Ht] _. pose proof (view_students_db_run w) as Hrun. rewrite Ht in Hrun.
  rewrite <- Ht in Hrun.
  split; [done|]. split; [apply records_ascending|].
  split; [apply elem_of_records|].
  intros Hempty. rewrite Hrun, records_empty by done. simpl.
  by rewrite app_nil_r, world_eta.
Qed.

Lemma view_students_db_prints_witness :
  let w := World (Some (Table students_columns
                   (<[2 := Row (SqlText "Bob") (SqlText "B") (SqlText "bob@x.com")]>
                     {[1 := Row (SqlText "Ann") (SqlText "A") (SqlText "ann@x.com")]})))
                 ∅ [] [] in
  schema_exists w /\ well_formed w /\
  stdout (view_students_db w).2 =
    [PrintRow (PyInt 1, PyStr "Ann", PyStr "A", PyStr "ann@x.com");
     PrintRow (PyInt 2, PyStr "Bob", PyStr "B", PyStr "bob@x.com")].
Proof.
  intros w.
  assert (schema_exists w) as H1 by (by eexists).
  assert (well_formed w) as H2.
  { split; [reflexivity|]. simpl.
    apply map_Forall_insert_2; [reflexivity|].
    apply map_Forall_singleton. reflexivity. }
  destruct (view_students_db_prints w H1 H2) as (Hrun & _).
  split; [exact H1|]. split; [exact H2|]. rewrite Hrun. vm_compute. reflexivity.
Defined.

(** C4 as stated fails: [view_students_db] hands no records to its caller
    and is not free of effects.  It returns [None] on an empty table and on
    a table with a record alike, and it writes to the terminal. *)
Lemma view_students_db_returns_none :
  let w0 := World (Some (Table students_columns ∅)) ∅ [] [] in
  let w1 := World (Some (Table students_columns
                     {[1 := Row (SqlText "Ann") (SqlText "A") (SqlText "ann@x.com")]}))
                  ∅ [] [] in
  records w0 <> records w1 /\
  (view_students_db w0).1 = Ok PyNone /\
  (view_students_db w1).1 = Ok PyNone /\
  stdout (view_students_db w1).2 <> stdout w1.
Proof.
  intros w0 w1. repeat split; by vm_compute.
Qed.

(** ** Connections *)

(** C3 (as the code has it).  A store call that returns has closed the
    connection it opened: the open connections are those from before the
    call.  A store call that raises has not: the exception leaves the
    function before [close()], and the connection the call opened is still
    open afterwards. *)
Theorem connection_closed_on_return (c : call) (w : world) :
  match (perform c w).1 with
  | Ok _ => conns (perform c w).2 = conns w
  | Raise _ =>
      exists cn, conns (perform c w).2 = <[fresh (dom (conns w)) := cn]> (conns w) /\
                 conns w !! fresh (dom (conns w)) = None
  end.
Proof.
  pose proof (fresh_conn_closed w) as Hh.
  destruct c as [n g e| |k n g e|k]; simpl.
  - rewrite add_student_run. cbv zeta.
    destruct (file w) as [t|]; [|by simpl; eauto].
    destruct (run _ _) as [[d' rs]|err]; simpl; eauto.
  - rewrite view_students_db_run. destruct (file w) as [t|]; simpl; eauto.
  - rewrite update_student_run. cbv zeta.
    destruct (file w) as [t|]; [|by simpl; eauto].
    destruct (run _ _) as [[d' rs]|err]; simpl; eauto.
  - rewrite delete_student_run. cbv zeta.
    destruct (file w) as [t|]; [|by simpl; eauto].
    destruct (run _ _) as [[d' rs]|err]; simpl; eauto.
Qed.

(** C3 as stated fails on a failure path: [add_student] with [None] for the
    name raises IntegrityError, and the connection it opened stays open. *)
Lemma add_student_leaves_connection_open :
  let w := World (Some (Table students_columns ∅)) ∅ [] [] in
  let out := add_student PyNone (PyStr "A") (PyStr "ann@x.com") w in
  conns w = ∅ /\
  out.1 = Raise (IntegrityError "NOT NULL constraint failed: students.name") /\
  is_Some (conns out.2 !! 0%nat).
Proof.
  intros w out. split; [done|]. split; [by vm_compute|].
  vm_compute. by eexists.
Qed.

(** ** Update and Delete *)

Lemma stored_file (w : world) (k : Z) (r : row) :
  stored w k = Some r -> exists t, file w = Some t /\ rows t !! k = Some r.
Proof.
  unfold stored, persisted. destruct (file w) as [t|]; [by eauto|].
  by rewrite lookup_empty.
Qed.

Lemma well_formed_file (w : world) (t : table) :
  well_formed w -> file w = Some t ->
  columns t = students_columns /\
  forall k r, rows t !! k = Some r -> in_int64 k = true.
Proof. unfold well_formed. intros Hwf Ht. by rewrite Ht in Hwf. Qed.

Lemma fmap_filter_comm {A B} (f : A -> B) (P : A -> Prop) (Q : B -> Prop)
    `{forall x, Decision (P x)} `{forall y, Decision (Q y)} (l : list A) :
  (forall x, P x <-> Q (f x)) -> f <$> filter P l = filter Q (f <$> l).
Proof.
  intros HPQ. induction l as [|a l IH]; [done|]. rewrite fmap_cons.
  destruct (decide (P a)) as [Ha|Ha].
  - rewrite (filter_cons_True P) by done.
    rewrite (filter_cons_True Q) by (by apply HPQ). by rewrite fmap_cons, IH.
  - rewrite (filter_cons_False P) by done.
    rewrite (filter_cons_False Q) by (by rewrite <- HPQ). done.
Qed.






(** C7.  When a record with identifier [k] is persisted in a well-formed
    store and no open connection is inside a transaction, [delete_student]
    returns normally and removes that record and no other: no record has
    identifier [k] afterwards, every record under another identifier is
    as before, and a full listing afterwards is the old listing without
    the record of [k], in ascending order of identifier. *)
Theorem delete_student_removes_one (w : world) (k : Z) (r : row) :
  well_formed w ->
  no_open_transaction w ->
  stored w k = Some r ->
  let out := delete_student k w in
  out.1 = Ok PyNone /\
  stored out.2 k = None /\
  (forall j, j <> k -> stored out.2 j = stored w j) /\
  records out.2 = filter (fun x => id_of x <> PyInt k) (records w) /\
  ascending (records out.2) /\
  conns out.2 = conns w.
Proof.
  intros Hwf _ Hr out.
  destruct (stored_file w k r Hr) as (t & Ht & Hk).
  destruct (well_formed_file w t Hwf Ht) as [Hcols Hrange].
  assert (out = (Ok PyNone,
                 set_file (Some (Table (columns t) (delete k (rows t)))) w)) as Hout.
  { unfold out. rewrite delete_student_run, Ht. simpl.
    by rewrite (Hrange k r Hk). }
  assert (persisted w = rows t) as Hp by (unfold persisted; by rewrite Ht).
  split; [by rewrite Hout|]. split; [|split; [|split; [|split]]].
  - rewrite Hout. unfold stored. simpl. rewrite persisted_set_file.
    apply lookup_delete_eq.
  - intros j Hj. rewrite Hout. unfold stored. simpl.
    rewrite persisted_set_file, Hp. by apply lookup_delete_ne.
  - rewrite Hout. unfold records. simpl. rewrite persisted_set_file, Hp. simpl.
    rewrite scan_delete. apply fmap_filter_comm.
    intros [j x]. unfold id_of. simpl. split; [congruence|]. intros H ->. done.
  - apply records_ascending.
  - by rewrite Hout.
Qed.

Lemma delete_student_removes_one_witness :
  let ann := Row (SqlText "Ann") (SqlText "A") (SqlText "ann@x.com") in
  let bob := Row (SqlText "Bob") (SqlText "B") (SqlText "bob@x.com") in
  let cyd := Row (SqlText "Cyd") (SqlText "C") (SqlText "cyd@x.com") in
  let w := World (Some (Table students_columns
                   (<[3 := cyd]> (<[2 := bob]> {[1 := ann]})))) ∅ [] [] in
  well_formed w /\ no_open_transaction w /\ stored w 2 = Some bob /\
  id_of <$> records (delete_student 2 w).2 = [PyInt 1; PyInt 3].
Proof.
  intros ann bob cyd w.
  assert (well_formed w) as H1.
  { split; [reflexivity|]. simpl.
    apply map_Forall_insert_2; [reflexivity|].
    apply map_Forall_insert_2; [reflexivity|].
    apply map_Forall_singleton. reflexivity. }
  assert (no_open_transaction w) as H0 by apply map_Forall_empty.
  assert (stored w 2 = Some bob) as H2 by reflexivity.
  destruct (delete_student_removes_one w 2 bob H1 H0 H2) as (_ & _ & _ & Hrec & _).
  split; [exact H1|]. split; [exact H0|]. split; [exact H2|].
  rewrite Hrec. vm_compute. reflexivity.
Defined.

(** ** Schema *)

Lemma setup_table_again (w : world) :
  setup_table (setup_table w).2 = setup_table w.
Proof.
  rewrite !setup_table_run. simpl. f_equal.
Qed.

Lemma call_times_setup_table (n : nat) (w : world) :
  call_times (S n) setup_table w = setup_table w.
Proof.
  revert w. induction n as [|n IH]; intros w.
  - simpl. unfold mbind, py_bind. by rewrite setup_table_run.
  - change (call_times (S (S n)) setup_table w)
      with (match setup_table w with
            | (Ok _, w') => call_times (S n) setup_table w'
            | (Raise e, w') => (Raise e, w')
            end).
    rewrite (setup_table_run w) at 1.
    replace (set_file _ w) with (setup_table w).2 by (by rewrite setup_table_run).
    by rewrite IH, setup_table_again.
Qed.

(** C8.  Calling [setup_table] [n] times, [n >= 1], has the result of
    calling it once.  That result: the call returns normally; a table that
    exists is kept as it is, columns and rows; a table that does not exist
    is created empty with the four columns id (INTEGER PRIMARY KEY), name,
    grade, email (TEXT NOT NULL); the persisted rows are those from before;
    connections and terminal are untouched. *)
Theorem setup_table_idempotent (n : nat) (w : world) :
  (1 <= n)%nat ->
  let once := setup_table w in
  call_times n setup_table w = once /\
  once.1 = Ok PyNone /\
  file once.2 = Some (match file w with
                      | Some t => t
                      | None => Table students_columns ∅
                      end) /\
  persisted once.2 = persisted w /\
  (well_formed w ->
   exists t, file once.2 = Some t /\ columns t = students_columns) /\
  conns once.2 = conns w /\ stdin once.2 = stdin w /\ stdout once.2 = stdout w.
Proof.
  intros Hn once. destruct n as [|n]; [lia|].
  split; [apply call_times_setup_table|].
  unfold once. rewrite setup_table_run. simpl.
  split; [done|]. split; [done|].
  split; [unfold persisted; simpl; by destruct (file w)|].
  split; [|done].
  intros Hwf. eexists. split; [done|].
  unfold well_formed in Hwf. destruct (file w) as [t|]; [tauto|done].
Qed.

Lemma setup_table_idempotent_witness :
  let w := World (Some (Table students_columns
                   {[1 := Row (SqlText "Ann") (SqlText "A") (SqlText "ann@x.com")]}))
                 ∅ [] [] in
  (1 <= 3)%nat /\
  call_times 3 setup_table w = setup_table w /\
  persisted (setup_table w).2 = persisted w.
Proof.
  intros w.
  assert (1 <= 3)%nat as H1 by lia.
  destruct (setup_table_idempotent 3 w H1) as (Htimes & _ & _ & Hrows & _).
  split; [exact H1|]. split; [exact Htimes|exact Hrows].
Defined.

(** ** What a store call can do to the file *)

Lemma run_effect (st : statement) (t : table) (d' : database) (rs : list pyrow) :
  run st (Some t) = Ok (d', rs) ->
  exists t', d' = Some t' /\ columns t' = columns t /\
    (rows t' = rows t \/
     (exists k r n g e,
        rows t' = <[k := r]> (rows t) /\ store_row (columns t) n g e = Ok r /\
        (is_Some (rows t !! k) \/ next_rowid (rows t) = Ok k)) \/
     (exists k, rows t' = delete k (rows t))).
Proof.
  destruct st as [cols|n g e| |n g e k|k]; simpl; unfold mbind, result_bind.
  - intros [= <- _]. eauto.
  - destruct (bind_param n) as [n'|]; [|done].
    destruct (bind_param g) as [g'|]; [|done].
    destruct (bind_param e) as [e'|]; [|done].
    destruct (store_row _ _ _ _) as [r|] eqn:Hr; [|done].
    destruct (next_rowid _) as [k|] eqn:Hk; [|done].
    intros [= <- _]. eexists. split; [done|]. split; [done|].
    right. left. exists k, r, n', g', e'. eauto.
  - intros [= <- _]. eauto.
  - destruct (bind_param n) as [n'|]; [|done].
    destruct (bind_param g) as [g'|]; [|done].
    destruct (bind_param e) as [e'|]; [|done].
    destruct (in_int64 k); [|done].
    destruct (rows t !! k) as [old|] eqn:Hold; [|intros [= <- _]; by eauto].
    destruct (store_row _ _ _ _) as [r|] eqn:Hr; [|done].
    intros [= <- _]. eexists. split; [done|]. split; [done|].
    right. left. exists k, r, n', g', e'. eauto.
  - destruct (in_int64 k); [|done].
    intros [= <- _]. eexists. split; [done|]. split; [done|]. eauto.
Qed.

Lemma perform_file (c : call) (w : world) :
  file (perform c w).2 = file w \/
  exists st t d' rs,
    file w = Some t /\ run st (Some t) = Ok (d', rs) /\ file (perform c w).2 = d'.
Proof.
  destruct c as [n g e| |k n g e|k]; simpl.
  - rewrite add_student_run. cbv zeta.
    destruct (file w) as [t|] eqn:Ht; [|by left].
    destruct (run _ _) as [[d' rs]|err] eqn:Hrun; [|by left].
    right. by exists (INSERT_INTO n g e), t, d', rs.
  - left. rewrite view_students_db_run.
    destruct (file w) eqn:Ht; simpl; by rewrite ?Ht.
  - rewrite update_student_run. cbv zeta.
    destruct (file w) as [t|] eqn:Ht; [|by left].
    destruct (run _ _) as [[d' rs]|err] eqn:Hrun; [|by left].
    right. by exists (UPDATE_SET_WHERE_ID n g e k), t, d', rs.
  - rewrite delete_student_run. cbv zeta.
    destruct (file w) as [t|] eqn:Ht; [|by left].
    destruct (run _ _) as [[d' rs]|err] eqn:Hrun; [|by left].
    right. by exists (DELETE_WHERE_ID k), t, d', rs.
Qed.

Lemma well_formed_perform (c : call) (w : world) :
  well_formed w -> well_formed (perform c w).2.
Proof.
  intros Hwf. destruct (perform_file c w) as [Hsame|(st & t & d' & rs & Ht & Hrun & Hd')].
  { unfold well_formed in *. by rewrite Hsame. }
  destruct (well_formed_file w t Hwf Ht) as [Hcols Hrange].
  destruct (run_effect st t d' rs Hrun) as (t' & -> & Hcols' & Hrows).
  unfold well_formed. rewrite Hd'. split; [congruence|].
  destruct Hrows as [->|[(k & r & n & g & e & -> & _ & Hk)| [k ->]]].
  - done.
  - apply map_Forall_insert_2; [|done].
    destruct Hk as [[old Hold]|Hnext]; [by eapply Hrange|].
    destruct (next_rowid_above _ _ Hnext) as (_ & _ & Hle & Heq).
    unfold in_int64. apply andb_true_iff. split; [|by apply Z.leb_le].
    apply Z.leb_le. destruct (max_rowid (rows t)) as [m|] eqn:Hm; [|by subst].
    apply max_rowid_Some in Hm as [[x Hx] _]. specialize (Hrange m x Hx).
    unfold in_int64 in Hrange. apply andb_true_iff in Hrange as [?%Z.leb_le _]. lia.
  - by apply map_Forall_delete.
Qed.

Lemma all_populated_perform (c : call) (w : world) :
  well_formed w -> all_populated w -> all_populated (perform c w).2.
Proof.
  intros Hwf Hpop.
  destruct (perform_file c w) as [Hsame|(st & t & d' & rs & Ht & Hrun & Hd')].
  { unfold all_populated, persisted in *. by rewrite Hsame. }
  destruct (well_formed_file w t Hwf Ht) as [Hcols _].
  destruct (run_effect st t d' rs Hrun) as (t' & -> & _ & Hrows).
  unfold all_populated, persisted in *. rewrite Hd'. rewrite Ht in Hpop.
  destruct Hrows as [->|[(k & r & n & g & e & -> & Hr & _)| [k ->]]].
  - done.
  - apply map_Forall_insert_2; [|done].
    rewrite Hcols in Hr. by eapply store_row_populated.
  - by apply map_Forall_delete.
Qed.

Lemma after_invariant (cs : list call) (w : world) :
  well_formed w -> all_populated w ->
  well_formed (after cs w) /\ all_populated (after cs w).
Proof.
  revert w. induction cs as [|c cs IH]; intros w Hwf Hpop; [done|].
  simpl. apply IH; [by apply well_formed_perform|by apply all_populated_perform].
Qed.

(** ** NOT NULL *)

Lemma insert_null_raises (t : table) (name grade email : pyval) :
  columns t = students_columns ->
  name = PyNone \/ grade = PyNone \/ email = PyNone ->
  exists err, run (INSERT_INTO name grade email) (Some t) = Raise err.
Proof.
  intros Hcols Hnull. simpl. unfold mbind, result_bind.
  destruct (bind_param name) as [n|] eqn:Hn; [|by eauto].
  destruct (bind_param grade) as [g|] eqn:Hg; [|by eauto].
  destruct (bind_param email) as [e|] eqn:He; [|by eauto].
  destruct (store_row_null n g e) as [err Herr].
  { destruct Hnull as [-> | [-> | ->]]; simpl in *; simplify_eq; tauto. }
  rewrite Hcols, Herr. eauto.
Qed.

(** C10.  On a well-formed store, [add_student] with [None] for the name,
    the grade or the email raises and persists nothing: file and listing
    are as before.  Since UPDATE is checked the same way, no call of the
    store ever persists a NULL field: if every persisted record has name,
    grade and email populated, so it is after any sequence of store calls
    (the id is the key of the record and always present). *)
Theorem add_student_rejects_null (w : world) (name grade email : pyval) :
  well_formed w ->
  name = PyNone \/ grade = PyNone \/ email = PyNone ->
  let out := add_student name grade email w in
  (exists err, out.1 = Raise err) /\
  file out.2 = file w /\
  records out.2 = records w /\
  (all_populated w -> forall cs, all_populated (after cs w)).
Proof.
  intros Hwf Hnull out.
  assert ((exists err, out.1 = Raise err) /\ file out.2 = file w) as [Hraise Hfile].
  { unfold out. rewrite add_student_run. cbv zeta.
    destruct (file w) as [t|] eqn:Ht; [|by eauto].
    destruct (well_formed_file w t Hwf Ht) as [Hcols _].
    destruct (insert_null_raises t name grade email Hcols Hnull) as [err ->].
    eauto. }
  split; [done|]. split; [done|]. split.
  - unfold records, persisted. by rewrite Hfile.
  - intros Hpop cs. by apply after_invariant.
Qed.

Lemma add_student_rejects_null_witness :
  let w := World (Some (Table students_columns
                   {[1 := Row (SqlText "Ann") (SqlText "A") (SqlText "ann@x.com")]}))
                 ∅ [] [] in
  let out := add_student (PyStr "Bob") PyNone (PyStr "bob@x.com") w in
  well_formed w /\
  (PyStr "Bob" = PyNone \/ PyNone = PyNone \/ PyStr "bob@x.com" = PyNone) /\
  (exists err, out.1 = Raise err) /\ file out.2 = file w.
Proof.
  intros w out.
  assert (well_formed w) as H1.
  { split; [reflexivity|]. apply map_Forall_singleton. reflexivity. }
  assert (PyStr "Bob" = PyNone \/ PyNone = PyNone \/ PyStr "bob@x.com" = PyNone)
    as H2 by (right; left; reflexivity).
  destruct (add_student_rejects_null w (PyStr "Bob") PyNone (PyStr "bob@x.com") H1 H2)
    as (Hraise & Hfile & _).
  split; [exact H1|]. split; [exact H2|]. split; [exact Hraise|exact Hfile].
Defined.

(** ** Identifiers over a sequence of calls *)

Lemma new_ids_insert (w w' : world) (k : Z) (r : row) :
  persisted w !! k = None ->
  persisted w' = <[k := r]> (persisted w) ->
  new_ids w w' = [k].
Proof.
  intros Hk Hw'. unfold new_ids. rewrite Hw', dom_insert_L.
  rewrite difference_fresh by (by apply not_elem_of_dom).
  apply elements_singleton.
Qed.

Lemma perform_ok_max (c : call) (w w' : world) (v : pyval) :
  perform c w = (Ok v, w') ->
  match c with
  | Create _ _ _ =>
      exists k, new_ids w w' = [k] /\
                max_rowid (persisted w') = Some k /\
                forall j, is_Some (persisted w !! j) -> j < k
  | Delete k =>
      max_rowid (persisted w) <> Some k ->
      max_rowid (persisted w') = max_rowid (persisted w)
  | _ => max_rowid (persisted w') = max_rowid (persisted w)
  end.
Proof.
  destruct c as [n g e| |k n g e|k]; simpl.
  - rewrite add_student_run. cbv zeta.
    destruct (file w) as [t|] eqn:Ht; [|done].
    assert (persisted w = rows t) as Hp by (unfold persisted; by rewrite Ht).
    simpl. unfold mbind, result_bind.
    destruct (bind_param n) as [n'|]; [|done].
    destruct (bind_param g) as [g'|]; [|done].
    destruct (bind_param e) as [e'|]; [|done].
    destruct (store_row _ _ _ _) as [r|]; [|done].
    destruct (next_rowid _) as [k|] eqn:Hk; [|done].
    intros [= _ <-]. rewrite persisted_set_file. simpl.
    destruct (next_rowid_above _ _ Hk) as (Hfree & Habove & _).
    exists k. rewrite Hp. split; [|split; [|done]].
    + apply (new_ids_insert _ _ k r); [by rewrite Hp|].
      by rewrite persisted_set_file, Hp.
    + by apply max_rowid_insert_above.
  - rewrite view_students_db_run.
    destruct (file w) as [t|] eqn:Ht; [|done].
    intros [= _ <-]. unfold persisted. simpl. by rewrite Ht.
  - rewrite update_student_run. cbv zeta.
    destruct (file w) as [t|] eqn:Ht; [|done].
    assert (persisted w = rows t) as Hp by (unfold persisted; by rewrite Ht).
    simpl. unfold mbind, result_bind.
    destruct (bind_param n) as [n'|]; [|done].
    destruct (bind_param g) as [g'|]; [|done].
    destruct (bind_param e) as [e'|]; [|done].
    destruct (in_int64 k); [|done].
    destruct (rows t !! k) as [old|] eqn:Hold.
    + destruct (store_row _ _ _ _) as [r|]; [|done].
      intros [= _ <-]. rewrite persisted_set_file, Hp. simpl.
      apply max_rowid_overwrite. by eexists.
    + intros [= _ <-]. by rewrite persisted_set_file, Hp.
  - rewrite delete_student_run. cbv zeta.
    destruct (file w) as [t|] eqn:Ht; [|done].
    assert (persisted w = rows t) as Hp by (unfold persisted; by rewrite Ht).
    simpl. unfold mbind, result_bind.
    destruct (in_int64 k); [|done].
    intros [= _ <-] Hne. rewrite persisted_set_file, Hp in *. simpl.
    by apply max_rowid_delete_other.
Qed.

Lemma StronglySorted_lt_NoDup (l : list Z) : StronglySorted Z.lt l -> NoDup l.
Proof.
  induction 1 as [|a l Hl IH Ha]; constructor; [|done].
  intros Hin. eapply Forall_forall in Ha; [|done]. lia.
Qed.

Lemma assigned_ids_above (cs : list call) (w : world) :
  spares_largest cs w ->
  StronglySorted Z.lt (assigned_ids cs w) /\
  forall k m, k ∈ assigned_ids cs w -> max_rowid (persisted w) = Some m -> m < k.
Proof.
  revert w. induction cs as [|c cs IH]; intros w Hspare; simpl.
  { split; [constructor|]. intros k m Hk. by apply elem_of_nil in Hk. }
  destruct Hspare as [Hc Hrest].
  destruct (perform c w) as [[v|err] w'] eqn:Hrun; simpl in *;
    [|split; [constructor|intros k m Hk; by apply elem_of_nil in Hk]].
  destruct (IH w' Hrest) as [Hsorted Habove].
  pose proof (perform_ok_max c w w' v Hrun) as Hmax.
  destruct c as [n g e| |k n g e|k].
  - destruct Hmax as (k & -> & Hk & Hold). simpl. split.
    + constructor; [done|]. apply Forall_forall. intros j Hj. by eapply Habove.
    + intros j m [->|Hj]%elem_of_cons Hm.
      * apply Hold. by apply max_rowid_Some in Hm as [? _].
      * specialize (Habove j k Hj Hk).
        apply max_rowid_Some in Hm as [Hm _]. specialize (Hold m Hm). lia.
  - rewrite Hmax in Habove. done.
  - rewrite Hmax in Habove. done.
  - rewrite (Hmax Hc) in Habove. done.
Qed.

(** C2 (as the code has it).  On a well-formed store with no open
    connection inside a transaction, over any sequence of Create, ReadAll,
    Update and Delete calls in which no Delete removes the record that
    holds the largest identifier at that moment and every Create finds the
    largest identifier below SQLite's largest row id, the identifiers
    assigned by the Create calls strictly increase, so none is assigned
    twice. *)
Theorem assigned_ids_increase (cs : list call) (w : world) :
  well_formed w ->
  no_open_transaction w ->
  spares_largest cs w ->
  below_ceiling cs w ->
  StronglySorted Z.lt (assigned_ids cs w) /\ NoDup (assigned_ids cs w).
Proof.
  intros _ _ Hspare _. destruct (assigned_ids_above cs w Hspare) as [Hsorted _].
  split; [done|by apply StronglySorted_lt_NoDup].
Qed.

Lemma assigned_ids_increase_witness :
  let w := World (Some (Table students_columns ∅)) ∅ [] [] in
  let cs := [ Create (PyStr "Ann") (PyStr "A") (PyStr "ann@x.com");
              Create (PyStr "Bob") (PyStr "B") (PyStr "bob@x.com");
              Delete 1;
              Update 2 (PyStr "Rob") (PyStr "B") (PyStr "rob@x.com");
              Create (PyStr "Cyd") (PyStr "C") (PyStr "cyd@x.com") ] in
  well_formed w /\ no_open_transaction w /\
  spares_largest cs w /\ below_ceiling cs w /\
  assigned_ids cs w = [1; 2; 3] /\
  StronglySorted Z.lt (assigned_ids cs w).
Proof.
  intros w cs.
  assert (well_formed w) as H2 by (split; [reflexivity|apply map_Forall_empty]).
  assert (no_open_transaction w) as H0 by apply map_Forall_empty.
  assert (spares_largest cs w) as H1.
  { simpl. repeat split. vm_compute. discriminate. }
  assert (below_ceiling cs w) as H3.
  { simpl. repeat split; vm_compute; discriminate. }
  destruct (assigned_ids_increase cs w H2 H0 H1 H3) as [Hsorted _].
  split; [exact H2|]. split; [exact H0|]. split; [exact H1|]. split; [exact H3|].
  split; [vm_compute; reflexivity|exact Hsorted].
Defined.

(** C2 as stated fails: after the record with the largest identifier is
    deleted, the next Create assigns that identifier again.  On an empty
    table, Create, Delete(1), Create assigns 1 twice. *)
Lemma deleted_largest_id_is_reused :
  let w := World (Some (Table students_columns ∅)) ∅ [] [] in
  assigned_ids [ Create (PyStr "Ann") (PyStr "A") (PyStr "ann@x.com");
                 Delete 1;
                 Create (PyStr "Bob") (PyStr "B") (PyStr "bob@x.com") ] w
  = [1; 1].
Proof. by vm_compute. Qed.

(** ** The menu *)

Lemma print_menu_run (w : world) :
  print_menu w = (Ok tt, World (file w) (conns w) (stdin w) (stdout w ++ menu_lines)).
Proof.
  unfold print_menu, mbind, py_bind, print. simpl.
  by rewrite <- !app_assoc.
Qed.

Lemma input_run (prompt line : string) (rest : list string) (w : world) :
  stdin w = line :: rest ->
  input prompt w =
  (Ok line, World (file w) (conns w) rest (stdout w ++ [Prompt prompt])).
Proof. intros Hin. unfold input. by rewrite Hin. Qed.

Lemma input_strip_run (prompt line : string) (rest : list string) (w : world) :
  stdin w = line :: rest ->
  input_strip prompt w =
  (Ok (PyStr.strip line),
   World (file w) (conns w) rest (stdout w ++ [Prompt prompt])).
Proof.
  intros Hin. unfold input_strip, mbind, py_bind.
  by rewrite (input_run _ _ _ _ Hin).
Qed.

Lemma user_choice_run (line : string) (rest : list string) (w : world) :
  stdin w = line :: rest ->
  user_choice w =
  (Ok (PyStr.strip line),
   World (file w) (conns w) rest (stdout w ++ [Prompt "Choose an option (1-5): "])).
Proof.
  intros Hin. unfold user_choice, mbind, py_bind.
  by rewrite (input_run _ _ _ _ Hin).
Qed.

(** C9 (as the code has it).  With choice 3 or 4, when the text typed for
    the id, stripped, is not an integer literal for [int], the pass prints
    "Invalid ID. Must be a number." and ends with [done] still false: the
    file and the connections are untouched (no store function ran), no
    further line is read for that choice, and the loop goes on with the
    next pass, which shows the menu and asks for a choice again. *)
Theorem invalid_id_text_is_refused (w : world) (choice raw : string)
    (rest : list string) :
  stdin w = choice :: raw :: rest ->
  PyStr.strip choice = "3" \/ PyStr.strip choice = "4" ->
  PyStr.py_int (PyStr.strip raw) = None ->
  let prompt := if String.eqb (PyStr.strip choice) "3"
                then "Student ID to update: " else "Student ID to delete: " in
  let w' := World (file w) (conns w) rest
              (stdout w ++ menu_lines ++
               [Prompt "Choose an option (1-5): "; Prompt prompt;
                PrintStr "Invalid ID. Must be a number."]) in
  menu_pass w = (Ok false, w') /\
  forall fuel, main_loop (S fuel) w = main_loop fuel w'.
Proof.
  intros Hin Hchoice Hraw prompt w'.
  assert (menu_pass w = (Ok false, w')) as Hpass.
  { unfold menu_pass, mbind at 1, py_bind at 1. rewrite print_menu_run.
    unfold mbind at 1, py_bind at 1.
    erewrite user_choice_run by (simpl; exact Hin).
    unfold w', prompt.
    destruct Hchoice as [-> | ->]; simpl;
      unfold mbind at 1, py_bind at 1, try_except_ValueError;
      unfold mbind at 1, py_bind at 1;
      (erewrite input_strip_run by (simpl; reflexivity));
      unfold mbind at 1, py_bind at 1, int; rewrite Hraw; simpl;
      unfold print, mret, py_ret; simpl;
      by rewrite <- !app_assoc. }
  split; [done|]. intros fuel. simpl. by rewrite Hpass.
Qed.

Lemma invalid_id_text_is_refused_witness :
  let w := World (Some (Table students_columns ∅)) ∅ [" 3"; "abc"; "5"] [] in
  stdin w = " 3" :: "abc" :: ["5"] /\
  (PyStr.strip " 3" = "3" \/ PyStr.strip " 3" = "4") /\
  PyStr.py_int (PyStr.strip "abc") = None /\
  menu_pass w =
    (Ok false,
     World (file w) (conns w) ["5"]
       (menu_lines ++
        [Prompt "Choose an option (1-5): "; Prompt "Student ID to update: ";
         PrintStr "Invalid ID. Must be a number."])).
Proof.
  intros w.
  assert (stdin w = " 3" :: "abc" :: ["5"]) as H1 by reflexivity.
  assert (PyStr.strip " 3" = "3" \/ PyStr.strip " 3" = "4") as H2
    by (left; reflexivity).
  assert (PyStr.py_int (PyStr.strip "abc") = None) as H3 by reflexivity.
  destruct (invalid_id_text_is_refused w " 3" "abc" ["5"] H1 H2 H3) as [Hpass _].
  split; [exact H1|]. split; [exact H2|]. split; [exact H3|exact Hpass].
Defined.

(** C9 as stated fails for texts that are integers but not positive: "-5"
    and "0" are read by [int] without ValueError.  No "Invalid ID" message
    is printed; the pass goes on to the other prompts and calls the store
    function with that id, as "Student updated." and "Student deleted."
    show. *)
Lemma nonpositive_id_text_is_accepted :
  let ann := Row (SqlText "Ann") (SqlText "A") (SqlText "ann@x.com") in
  let t := Table students_columns {[1 := ann]} in
  let w3 := World (Some t) ∅ ["3"; "-5"; "Ben"; "B"; "ben@x.com"] [] in
  let w4 := World (Some t) ∅ ["4"; "0"; "y"] [] in
  ~ positive_integer_text "-5" /\
  ~ positive_integer_text "0" /\
  menu_pass w3 =
    (Ok false,
     World (Some t) ∅ []
       (menu_lines ++
        [Prompt "Choose an option (1-5): "; Prompt "Student ID to update: ";
         Prompt "New name: "; Prompt "New grade: "; Prompt "New email: ";
         PrintStr "Student updated."])) /\
  menu_pass w4 =
    (Ok false,
     World (Some t) ∅ []
       (menu_lines ++
        [Prompt "Choose an option (1-5): "; Prompt "Student ID to delete: ";
         Prompt "Delete student 0? (y/n): "; PrintStr "Student deleted."])).
Proof.
  intros ann t w3 w4.
  split; [intros (z & Hz & Hpos); vm_compute in Hz; simplify_eq; lia|].
  split; [intros (z & Hz & Hpos); vm_compute in Hz; simplify_eq; lia|].
  split; by vm_compute.
Qed.

(** ** [main] returns *)

Lemma reads_forward_ret {A} (a : A) : reads_forward (mret a).
Proof. intros w. simpl. lia. Qed.

Lemma reads_forward_bind {A B} (m : py A) (f : A -> py B) :
  reads_forward m -> (forall a, reads_forward (f a)) -> reads_forward (m ≫= f).
Proof.
  intros Hm Hf w. unfold mbind, py_bind. specialize (Hm w).
  destruct (m w) as [[a|e] w1]; simpl in *; [|done].
  specialize (Hf a w1). lia.
Qed.

Lemma reads_forward_try {A} (body handler : py A) :
  reads_forward body -> reads_forward handler ->
  reads_forward (try_except_ValueError body handler).
Proof.
  intros Hb Hh w. unfold try_except_ValueError. specialize (Hb w).
  destruct (body w) as [[a|[]] w1]; simpl in *; try done.
  specialize (Hh w1). lia.
Qed.

Lemma reads_forward_print (s : string) : reads_forward (print s).
Proof. intros w. simpl. lia. Qed.

Lemma reads_forward_input (prompt : string) : reads_forward (input prompt).
Proof. intros w. unfold input. destruct (stdin w); simpl; lia. Qed.

Lemma reads_forward_int (s : string) : reads_forward (int s).
Proof. intros w. unfold int. destruct (PyStr.py_int s); simpl; lia. Qed.

Lemma reads_forward_perform (c : call) : reads_forward (perform c).
Proof.
  intros w. destruct c as [n g e| |k n g e|k]; simpl.
  - rewrite add_student_run. cbv zeta. destruct (file w); [|simpl; lia].
    destruct (run _ _) as [[d' rs]|err]; simpl; lia.
  - rewrite view_students_db_run. destruct (file w); simpl; lia.
  - rewrite update_student_run. cbv zeta. destruct (file w); [|simpl; lia].
    destruct (run _ _) as [[d' rs]|err]; simpl; lia.
  - rewrite delete_student_run. cbv zeta. destruct (file w); [|simpl; lia].
    destruct (run _ _) as [[d' rs]|err]; simpl; lia.
Qed.

Ltac reads_forward_tac :=
  repeat first
    [ apply (reads_forward_perform (Create _ _ _))
    | apply (reads_forward_perform ReadAll)
    | apply (reads_forward_perform (Update _ _ _ _))
    | apply (reads_forward_perform (Delete _))
    | apply reads_forward_try
    | apply reads_forward_ret
    | apply reads_forward_print
    | apply reads_forward_input
    | apply reads_forward_int
    | apply reads_forward_bind; [|intros ?]
    | match goal with |- reads_forward (if ?b then _ else _) => destruct b end
    | match goal with |- reads_forward (let _ := _ in _) => cbv zeta end ].

(** A pass that returns has read at least one line. *)
Lemma menu_pass_reads (w w' : world) (b : bool) :
  menu_pass w = (Ok b, w') -> (length (stdin w') < length (stdin w))%nat.
Proof.
  unfold menu_pass, mbind at 1, py_bind at 1. rewrite print_menu_run.
  unfold mbind at 1, py_bind at 1.
  destruct (stdin w) as [|line rest] eqn:Hin.
  { unfold user_choice, mbind, py_bind, input. simpl. done. }
  erewrite user_choice_run by (simpl; reflexivity).
  match goal with
  | |- ?k ?w1 = _ -> _ =>
      assert (reads_forward k) as Hk; [|specialize (Hk w1)]
  end.
  { unfold input_strip, print_menu. reads_forward_tac. }
  intros Heq. rewrite Heq in Hk. simpl in *. lia.
Qed.

Lemma main_loop_returns (fuel : nat) (w : world) :
  (length (stdin w) < fuel)%nat -> is_Some (main_loop fuel w).
Proof.
  revert w. induction fuel as [|fuel IH]; intros w Hfuel; [lia|].
  simpl. destruct (menu_pass w) as [[[|]|e] w'] eqn:Hpass; [by eexists| |by eexists].
  apply IH. apply menu_pass_reads in Hpass. lia.
Qed.

(** [main] always comes to an end: the fuel it gives the loop is enough. *)
Lemma main_returns (w : world) : is_Some (main w).
Proof.
  unfold main. rewrite setup_table_run. apply main_loop_returns. simpl. lia.
Qed.

(** * Further properties of Assignment_2.py *)

(** ** Store calls on text values, one equation each *)

Lemma persisted_file (w : world) (t : table) :
  file w = Some t -> persisted w = rows t.
Proof. unfold persisted. by intros ->. Qed.



Lemma delete_student_in_range (w : world) (t : table) (k : Z) :
  file w = Some t ->
  in_int64 k = true ->
  delete_student k w =
  (Ok PyNone, set_file (Some (Table (columns t) (delete k (rows t)))) w).
Proof.
  intros Ht Hk. rewrite delete_student_run, Ht. simpl. by rewrite Hk.
Qed.


Lemma set_file_twice (d d' : database) (w : world) :
  set_file d' (set_file d w) = set_file d' w.
Proof. done. Qed.

(** ** Failure and missing table *)

(** X1.  A store call that raises has persisted nothing and has written
    nothing to the terminal: file, pending input and output are as they
    were before the call. *)
Theorem failed_call_persists_nothing (c : call) (w : world) (err : exn) :
  (perform c w).1 = Raise err ->
  file (perform c w).2 = file w /\
  stdin (perform c w).2 = stdin w /\
  stdout (perform c w).2 = stdout w.
Proof.
  destruct c as [n g e| |k n g e|k]; simpl.
  - rewrite add_student_run. cbv zeta.
    destruct (file w) eqn:Ht; [|simpl; by rewrite Ht].
    destruct (run _ _) as [[d' rs]|err']; simpl; [done|by rewrite Ht].
  - rewrite view_students_db_run.
    destruct (file w) eqn:Ht; simpl; [done|by rewrite Ht].
  - rewrite update_student_run. cbv zeta.
    destruct (file w) eqn:Ht; [|simpl; by rewrite Ht].
    destruct (run _ _) as [[d' rs]|err']; simpl; [done|by rewrite Ht].
  - rewrite delete_student_run. cbv zeta.
    destruct (file w) eqn:Ht; [|simpl; by rewrite Ht].
    destruct (run _ _) as [[d' rs]|err']; simpl; [done|by rewrite Ht].
Qed.

Lemma failed_call_persists_nothing_witness :
  let w := World (Some (Table students_columns
                   {[1 := Row (SqlText "Ann") (SqlText "A") (SqlText "ann@x.com")]}))
                 ∅ ["2"] [PrintStr "Student Added"] in
  let c := Update 1 (PyStr "Ben") PyNone (PyStr "ben@x.com") in
  (perform c w).1 = Raise (IntegrityError "NOT NULL constraint failed: students.grade") /\
  file (perform c w).2 = file w /\
  stdout (perform c w).2 = stdout w.
Proof.
  intros w c.
  assert ((perform c w).1 =
          Raise (IntegrityError "NOT NULL constraint failed: students.grade"))
    as H1 by (vm_compute; reflexivity).
  destruct (failed_call_persists_nothing c w _ H1) as (Hfile & _ & Hout).
  split; [exact H1|]. split; [exact Hfile|exact Hout].
Defined.

(** X2.  Before [setup_table] has run on the file, every store call raises
    OperationalError "no such table: students" and the file stays without
    the table: no call creates it on the way. *)
Theorem store_call_without_table (c : call) (w : world) :
  file w = None ->
  (perform c w).1 = Raise (OperationalError "no such table: students") /\
  file (perform c w).2 = None.
Proof.
  intros Hnone. destruct c as [n g e| |k n g e|k]; simpl.
  - rewrite add_student_run, Hnone. by simpl.
  - rewrite view_students_db_run, Hnone. by simpl.
  - rewrite update_student_run, Hnone. by simpl.
  - rewrite delete_student_run, Hnone. by simpl.
Qed.

Lemma store_call_without_table_witness :
  let w := World None ∅ [] [] in
  file w = None /\
  (perform (Delete 1) w).1 = Raise (OperationalError "no such table: students") /\
  file (perform (Delete 1) w).2 = None.
Proof.
  intros w.
  assert (file w = None) as H1 by reflexivity.
  destruct (store_call_without_table (Delete 1) w H1) as [Hraise Hfile].
  split; [exact H1|]. split; [exact Hraise|exact Hfile].
Defined.

(** X3.  After [setup_table] on a file without the table, a listing prints
    nothing and returns: the two calls in sequence leave an empty table
    with the columns of [setup_table], no open connection of their own and
    the terminal untouched. *)
Theorem setup_then_view_prints_nothing (w : world) :
  file w = None ->
  (_ ← setup_table; view_students_db) w =
  (Ok PyNone,
   World (Some (Table students_columns ∅)) (conns w) (stdin w) (stdout w)).
Proof.
  intros Hnone. unfold mbind, py_bind.
  rewrite setup_table_run, Hnone, view_students_db_run. simpl.
  unfold records, persisted. simpl. by rewrite scan_empty, app_nil_r.
Qed.

Lemma setup_then_view_prints_nothing_witness :
  let w := World None ∅ ["5"] [] in
  file w = None /\
  (_ ← setup_table; view_students_db) w =
  (Ok PyNone, World (Some (Table students_columns ∅)) ∅ ["5"] []).
Proof.
  intros w.
  assert (file w = None) as H1 by reflexivity.
  split; [exact H1|]. exact (setup_then_view_prints_nothing w H1).
Defined.

(** ** How store calls compose *)











(** X7.  Update never adds a record and never removes one: whatever the
    arguments, and whether the call returns or raises, the identifiers
    persisted after [update_student] are those persisted before. *)
Theorem update_keeps_ids (w : world) (k : Z) (name grade email : pyval) :
  dom (persisted (update_student k name grade email w).2) = dom (persisted w).
Proof.
  rewrite update_student_run. cbv zeta.
  destruct (file w) as [t|] eqn:Ht; [|unfold persisted; simpl; by rewrite Ht].
  pose proof (persisted_file w t Ht) as Hp.
  simpl. unfold mbind, result_bind.
  destruct (bind_param name) as [n'|];
    [|unfold persisted; simpl; by rewrite Ht].
  destruct (bind_param grade) as [g'|];
    [|unfold persisted; simpl; by rewrite Ht].
  destruct (bind_param email) as [e'|];
    [|unfold persisted; simpl; by rewrite Ht].
  destruct (in_int64 k); [|unfold persisted; simpl; by rewrite Ht].
  destruct (rows t !! k) as [old|] eqn:Hold.
  - destruct (store_row _ _ _ _) as [r|];
      [|unfold persisted; simpl; by rewrite Ht].
    simpl. rewrite persisted_set_file, Hp. simpl. rewrite dom_insert_L.
    assert (k ∈ dom (rows t)) by (apply elem_of_dom; by eexists).
    apply set_eq. intros j. rewrite elem_of_union, elem_of_singleton.
    split; [intros [->|]; done|tauto].
  - simpl. by rewrite persisted_set_file, Hp.
Qed.

(** X8.  Delete is idempotent: on a well-formed store with its table and
    no open connection inside a transaction, for an identifier inside the
    64-bit range, a second [delete_student] of the same
    identifier returns normally and changes nothing. *)
Theorem delete_twice (w : world) (k : Z) :
  schema_exists w ->
  well_formed w ->
  no_open_transaction w ->
  in_int64 k = true ->
  delete_student k (delete_student k w).2 = (Ok PyNone, (delete_student k w).2).
Proof.
  intros [t Ht] _ _ Hk.
  rewrite (delete_student_in_range w t k Ht Hk). simpl.
  erewrite delete_student_in_range by (simpl; done). simpl.
  rewrite set_file_twice. f_equal. f_equal. f_equal. f_equal.
  apply delete_id, lookup_delete_eq.
Qed.

Lemma delete_twice_witness :
  let ann := Row (SqlText "Ann") (SqlText "A") (SqlText "ann@x.com") in
  let w := World (Some (Table students_columns {[1 := ann]})) ∅ [] [] in
  schema_exists w /\ well_formed w /\ no_open_transaction w /\
  in_int64 1 = true /\
  delete_student 1 (delete_student 1 w).2 = (Ok PyNone, (delete_student 1 w).2).
Proof.
  intros ann w.
  assert (schema_exists w) as H1 by (by eexists).
  assert (well_formed w) as H3.
  { split; [reflexivity|]. apply map_Forall_singleton. reflexivity. }
  assert (no_open_transaction w) as H0 by apply map_Forall_empty.
  assert (in_int64 1 = true) as H2 by reflexivity.
  split; [exact H1|]. split; [exact H3|]. split; [exact H0|]. split; [exact H2|].
  exact (delete_twice w 1 H1 H3 H0 H2).
Defined.

Lemma update_null_raises (t : table) (k : Z) (old : row) (name grade email : pyval) :
  columns t = students_columns ->
  rows t !! k = Some old ->
  name = PyNone \/ grade = PyNone \/ email = PyNone ->
  exists err, run (UPDATE_SET_WHERE_ID name grade email k) (Some t) = Raise err.
Proof.
  intros Hcols Hold Hnull. simpl. unfold mbind, result_bind.
  destruct (bind_param name) as [n|] eqn:Hn; [|by eauto].
  destruct (bind_param grade) as [g|] eqn:Hg; [|by eauto].
  destruct (bind_param email) as [e|] eqn:He; [|by eauto].
  destruct (in_int64 k); [|by eauto]. rewrite Hold.
  destruct (store_row_null n g e) as [err Herr].
  { destruct Hnull as [-> | [-> | ->]]; simpl in *; simplify_eq; tauto. }
  rewrite Hcols, Herr. eauto.
Qed.

(** X9.  NOT NULL guards Update as it guards Create: on a well-formed
    store, [update_student] of a persisted record with [None] for the
    name, the grade or the email raises, and the record keeps all its old
    values. *)
Theorem update_student_rejects_null (w : world) (k : Z) (old : row)
    (name grade email : pyval) :
  well_formed w ->
  stored w k = Some old ->
  name = PyNone \/ grade = PyNone \/ email = PyNone ->
  let out := update_student k name grade email w in
  (exists err, out.1 = Raise err) /\
  file out.2 = file w /\
  stored out.2 k = Some old.
Proof.
  intros Hwf Hold Hnull out.
  destruct (stored_file w k old Hold) as (t & Ht & Hk).
  destruct (well_formed_file w t Hwf Ht) as [Hcols _].
  destruct (update_null_raises t k old name grade email Hcols Hk Hnull)
    as [err Herr].
  assert (out = (Raise err,
                 set_conns (<[fresh (dom (conns w)) := Connection (Some (file w))]>
                              (conns w)) w)) as ->.
  { unfold out. rewrite update_student_run. cbv zeta. by rewrite Ht, Herr. }
  simpl. split; [by eauto|]. split; [done|]. done.
Qed.

Lemma update_student_rejects_null_witness :
  let ann := Row (SqlText "Ann") (SqlText "A") (SqlText "ann@x.com") in
  let w := World (Some (Table students_columns {[1 := ann]})) ∅ [] [] in
  let out := update_student 1 (PyStr "Ben") (PyStr "B") PyNone w in
  well_formed w /\ stored w 1 = Some ann /\
  (PyStr "Ben" = PyNone \/ PyStr "B" = PyNone \/ PyNone = PyNone) /\
  (exists err, out.1 = Raise err) /\ stored out.2 1 = Some ann.
Proof.
  intros ann w out.
  assert (well_formed w) as H1.
  { split; [reflexivity|]. apply map_Forall_singleton. reflexivity. }
  assert (stored w 1 = Some ann) as H2 by reflexivity.
  assert (PyStr "Ben" = PyNone \/ PyStr "B" = PyNone \/ PyNone = PyNone) as H3
    by (right; right; reflexivity).
  destruct (update_student_rejects_null w 1 ann (PyStr "Ben") (PyStr "B") PyNone
              H1 H2 H3) as (Hraise & _ & Hkept).
  split; [exact H1|]. split; [exact H2|]. split; [exact H3|].
  split; [exact Hraise|exact Hkept].
Defined.

(** ** The menu, option by option *)

Opaque add_student view_students_db update_student delete_student.

Ltac menu_choice Hin Hchoice :=
  unfold menu_pass, mbind at 1, py_bind at 1; rewrite print_menu_run;
  unfold mbind at 1, py_bind at 1;
  erewrite user_choice_run by (simpl; exact Hin);
  rewrite Hchoice; simpl.

Ltac menu_bind := unfold mbind at 1, py_bind at 1.

Ltac menu_input := menu_bind; erewrite input_strip_run by (simpl; reflexivity).



(** X11.  Option 2 on a well-formed store with its table: the pass prints every persisted
    record, in ascending order of id, after the menu and the prompt, reads
    nothing more, changes neither the file nor the connections, and goes
    on. *)
Theorem menu_view_lists_records (w : world) (choice : string) (rest : list string) :
  stdin w = choice :: rest ->
  PyStr.strip choice = "2" ->
  schema_exists w ->
  well_formed w ->
  menu_pass w =
  (Ok false,
   World (file w) (conns w) rest
     (stdout w ++ menu_lines ++ [Prompt "Choose an option (1-5): "] ++
      (PrintRow <$> records w))) /\
  ascending (records w).
Proof.
  intros Hin Hchoice [t Ht] _. split; [|apply records_ascending].
  menu_choice Hin Hchoice. menu_bind.
  rewrite view_students_db_run. simpl. rewrite Ht. simpl.
  unfold mret, py_ret, records, persisted. simpl. rewrite Ht.
  by rewrite <- !app_assoc.
Qed.

Lemma menu_view_lists_records_witness :
  let ann := Row (SqlText "Ann") (SqlText "A") (SqlText "ann@x.com") in
  let w := World (Some (Table students_columns {[1 := ann]})) ∅ [" 2 "] [] in
  stdin w = " 2 " :: [] /\ PyStr.strip " 2 " = "2" /\ schema_exists w /\
  well_formed w /\
  stdout (menu_pass w).2 =
    menu_lines ++ [Prompt "Choose an option (1-5): ";
                   PrintRow (PyInt 1, PyStr "Ann", PyStr "A", PyStr "ann@x.com")].
Proof.
  intros ann w.
  assert (stdin w = " 2 " :: []) as H1 by reflexivity.
  assert (PyStr.strip " 2 " = "2") as H2 by reflexivity.
  assert (schema_exists w) as H3 by (by eexists).
  assert (well_formed w) as H4.
  { split; [reflexivity|]. apply map_Forall_singleton. reflexivity. }
  destruct (menu_view_lists_records w _ _ H1 H2 H3 H4) as [Hpass _].
  split; [exact H1|]. split; [exact H2|]. split; [exact H3|]. split; [exact H4|].
  rewrite Hpass. vm_compute. reflexivity.
Defined.





Lemma lower_char_y (c : ascii) :
  PyStr.lower_char c = "y"%char -> c = "y"%char \/ c = "Y"%char.
Proof.
  destruct c as [[] [] [] [] [] [] [] []]; vm_compute; intros H;
    first [discriminate H | by left | by right].
Qed.

(** Only "y" and "Y" are lowered to "y". *)
Lemma lower_is_y (s : string) : PyStr.lower s = "y" <-> s = "y" \/ s = "Y".
Proof.
  split; [|by intros [-> | ->]].
  destruct s as [|c [|c' s']]; simpl; [done| |done].
  intros [= Hc]. by destruct (lower_char_y c Hc) as [-> | ->]; [left|right].
Qed.

(** X14.  Option 4 deletes only on confirmation.  When the text typed for
    the id is an integer and the answer to "Delete student <id>? (y/n): ",
    stripped, is neither "y" nor "Y", the pass prints "Delete canceled."
    and goes on: the file and the connections are untouched, whatever the
    id and whether the table exists. *)
Theorem menu_delete_canceled (w : world) (choice raw confirm : string)
    (rest : list string) (k : Z) :
  stdin w = choice :: raw :: confirm :: rest ->
  PyStr.strip choice = "4" ->
  PyStr.py_int (PyStr.strip raw) = Some k ->
  PyStr.strip confirm <> "y" ->
  PyStr.strip confirm <> "Y" ->
  menu_pass w =
  (Ok false,
   World (file w) (conns w) rest
     (stdout w ++ menu_lines ++
      [Prompt "Choose an option (1-5): "; Prompt "Student ID to delete: ";
       Prompt ("Delete student " +:+ pretty k +:+ "? (y/n): ");
       PrintStr "Delete canceled."])).
Proof.
  intros Hin Hchoice Hraw Hy HY.
  assert (String.eqb (PyStr.lower (PyStr.strip confirm)) "y" = false) as Hno.
  { apply String.eqb_neq. rewrite lower_is_y. tauto. }
  menu_choice Hin Hchoice. menu_bind. unfold try_except_ValueError.
  menu_input. menu_bind. unfold int. rewrite Hraw. unfold mret at 1, py_ret at 1.
  menu_bind. erewrite input_run by (simpl; reflexivity).
  cbv zeta. rewrite Hno. unfold print, mret, py_ret. simpl.
  by rewrite <- !app_assoc.
Qed.

Lemma menu_delete_canceled_witness :
  let ann := Row (SqlText "Ann") (SqlText "A") (SqlText "ann@x.com") in
  let w := World (Some (Table students_columns {[1 := ann]})) ∅
             ["4"; "1"; "yes"] [] in
  stdin w = "4" :: "1" :: "yes" :: [] /\
  PyStr.strip "4" = "4" /\ PyStr.py_int (PyStr.strip "1") = Some 1 /\
  PyStr.strip "yes" <> "y" /\ PyStr.strip "yes" <> "Y" /\
  file (menu_pass w).2 = file w /\
  last (stdout (menu_pass w).2) = Some (PrintStr "Delete canceled.").
Proof.
  intros ann w.
  assert (stdin w = "4" :: "1" :: "yes" :: []) as H1 by reflexivity.
  assert (PyStr.strip "4" = "4") as H2 by reflexivity.
  assert (PyStr.py_int (PyStr.strip "1") = Some 1) as H3 by reflexivity.
  assert (PyStr.strip "yes" <> "y") as H4 by (vm_compute; discriminate).
  assert (PyStr.strip "yes" <> "Y") as H5 by (vm_compute; discriminate).
  pose proof (menu_delete_canceled w _ _ _ _ _ H1 H2 H3 H4 H5) as Hpass.
  split; [exact H1|]. split; [exact H2|]. split; [exact H3|].
  split; [exact H4|]. split; [exact H5|].
  rewrite Hpass. split; reflexivity.
Defined.

(** X15.  Option 4 with the id of a persisted record and the answer "y" or
    "Y" (surrounding whitespace ignored), on a well-formed store with no
    open connection inside a transaction: the pass
    removes that record and no other, prints "Student deleted." and goes
    on. *)
Theorem menu_delete_confirmed (w : world) (choice raw confirm : string)
    (rest : list string) (k : Z) (r : row) :
  stdin w = choice :: raw :: confirm :: rest ->
  PyStr.strip choice = "4" ->
  PyStr.py_int (PyStr.strip raw) = Some k ->
  PyStr.strip confirm = "y" \/ PyStr.strip confirm = "Y" ->
  well_formed w ->
  no_open_transaction w ->
  stored w k = Some r ->
  menu_pass w =
  (Ok false,
   World (Some (Table students_columns (delete k (persisted w))))
     (conns w) rest
     (stdout w ++ menu_lines ++
      [Prompt "Choose an option (1-5): "; Prompt "Student ID to delete: ";
       Prompt ("Delete student " +:+ pretty k +:+ "? (y/n): ");
       PrintStr "Student deleted."])).
Proof.
  intros Hin Hchoice Hraw Hconfirm Hwf _ Hr.
  assert (String.eqb (PyStr.lower (PyStr.strip confirm)) "y" = true) as Hyes.
  { apply String.eqb_eq. by apply lower_is_y. }
  destruct (stored_file w k r Hr) as (t & Ht & Hk).
  destruct (well_formed_file w t Hwf Ht) as [Hcols Hrange].
  menu_choice Hin Hchoice. menu_bind. unfold try_except_ValueError.
  menu_input. menu_bind. unfold int. rewrite Hraw. unfold mret at 1, py_ret at 1.
  menu_bind. erewrite input_run by (simpl; reflexivity).
  cbv zeta. rewrite Hyes. menu_bind.
  erewrite (delete_student_in_range _ t k) by (simpl; eauto).
  unfold print, mret, py_ret, set_file. simpl.
  by rewrite Hcols, (persisted_file w t Ht), <- !app_assoc.
Qed.

Lemma menu_delete_confirmed_witness :
  let ann := Row (SqlText "Ann") (SqlText "A") (SqlText "ann@x.com") in
  let bob := Row (SqlText "Bob") (SqlText "B") (SqlText "bob@x.com") in
  let w := World (Some (Table students_columns (<[2 := bob]> {[1 := ann]}))) ∅
             ["4"; "1"; " Y "] [] in
  stdin w = "4" :: "1" :: " Y " :: [] /\
  PyStr.strip "4" = "4" /\ PyStr.py_int (PyStr.strip "1") = Some 1 /\
  (PyStr.strip " Y " = "y" \/ PyStr.strip " Y " = "Y") /\
  well_formed w /\ no_open_transaction w /\ stored w 1 = Some ann /\
  records (menu_pass w).2 = [(PyInt 2, PyStr "Bob", PyStr "B", PyStr "bob@x.com")].
Proof.
  intros ann bob w.
  assert (stdin w = "4" :: "1" :: " Y " :: []) as H1 by reflexivity.
  assert (PyStr.strip "4" = "4") as H2 by reflexivity.
  assert (PyStr.py_int (PyStr.strip "1") = Some 1) as H3 by reflexivity.
  assert (PyStr.strip " Y " = "y" \/ PyStr.strip " Y " = "Y") as H4
    by (right; reflexivity).
  assert (well_formed w) as H5.
  { split; [reflexivity|]. simpl.
    apply map_Forall_insert_2; [reflexivity|].
    apply map_Forall_singleton. reflexivity. }
  assert (no_open_transaction w) as H0 by apply map_Forall_empty.
  assert (stored w 1 = Some ann) as H6 by reflexivity.
  pose proof (menu_delete_confirmed w _ _ _ _ _ _ H1 H2 H3 H4 H5 H0 H6) as Hpass.
  split; [exact H1|]. split; [exact H2|]. split; [exact H3|].
  split; [exact H4|]. split; [exact H5|]. split; [exact H0|]. split; [exact H6|].
  rewrite Hpass. vm_compute. reflexivity.
Defined.

Lemma bind_not_true {A} (m : py A) (f : A -> py bool) :
  (forall a w w', f a w <> (Ok true, w')) ->
  forall w w', (m ≫= f) w <> (Ok true, w').
Proof.
  intros Hf w w'. unfold mbind, py_bind.
  destruct (m w) as [[a|e] w1]; [apply Hf|done].
Qed.

Lemma ret_false_not_true (w w' : world) : (mret false : py bool) w <> (Ok true, w').
Proof. done. Qed.

Ltac not_true :=
  repeat first
    [ apply ret_false_not_true
    | apply bind_not_true; intros ? ]; intros ? ?.

(** A pass that sets [done] was given option 5. *)
Lemma menu_pass_done (w w' : world) :
  menu_pass w = (Ok true, w') ->
  exists choice rest,
    stdin w = choice :: rest /\ PyStr.strip choice = "5" /\
    w' = World (file w) (conns w) rest
           (stdout w ++ menu_lines ++
            [Prompt "Choose an option (1-5): "; PrintStr "Exiting Program..."]).
Proof.
  intros Hpass. destruct (stdin w) as [|choice rest] eqn:Hin.
  { revert Hpass. unfold menu_pass, mbind at 1, py_bind at 1.
    rewrite print_menu_run. unfold mbind at 1, py_bind at 1.
    unfold user_choice, mbind, py_bind, input. simpl. by rewrite Hin. }
  exists choice, rest. split; [done|].
  revert Hpass. unfold menu_pass, mbind at 1, py_bind at 1.
  rewrite print_menu_run. unfold mbind at 1, py_bind at 1.
  erewrite user_choice_run by (simpl; exact Hin).
  destruct (String.eqb_spec (PyStr.strip choice) "1") as [|_];
    [intros H; exfalso; revert H; by not_true|].
  destruct (String.eqb_spec (PyStr.strip choice) "2") as [|_];
    [intros H; exfalso; revert H; by not_true|].
  destruct (String.eqb_spec (PyStr.strip choice) "3") as [|_];
    [intros H; exfalso; revert H; by not_true|].
  destruct (String.eqb_spec (PyStr.strip choice) "4") as [|_];
    [intros H; exfalso; revert H; by not_true|].
  destruct (String.eqb_spec (PyStr.strip choice) "5") as [Hfive|_];
    [|intros H; exfalso; revert H; by not_true].
  unfold mbind, py_bind, print, mret, py_ret. simpl.
  rewrite <- !app_assoc. intros [= <-]. done.
Qed.

(** X16.  The pass sets [done] exactly on option 5.  When the line typed at
    the menu, stripped, is "5", the pass prints "Exiting Program...", sets
    [done], reads nothing more and leaves the file and the connections as
    they are; and a pass that sets [done] was given such a line. *)
Theorem menu_exits_on_five_only (w : world) :
  (forall choice rest,
     stdin w = choice :: rest -> PyStr.strip choice = "5" ->
     menu_pass w =
     (Ok true,
      World (file w) (conns w) rest
        (stdout w ++ menu_lines ++
         [Prompt "Choose an option (1-5): "; PrintStr "Exiting Program..."]))) /\
  (forall w',
     menu_pass w = (Ok true, w') ->
     exists choice rest, stdin w = choice :: rest /\ PyStr.strip choice = "5").
Proof.
  split.
  - intros choice rest Hin Hfive. menu_choice Hin Hfive.
    unfold mbind, py_bind, print, mret, py_ret. simpl. by rewrite <- !app_assoc.
  - intros w' Hpass.
    destruct (menu_pass_done w w' Hpass) as (choice & rest & Hin & Hfive & _).
    by exists choice, rest.
Qed.

Lemma menu_exits_on_five_only_witness :
  let w := World None ∅ [" 5 "; "1"] [] in
  stdin w = " 5 " :: ["1"] /\ PyStr.strip " 5 " = "5" /\
  menu_pass w =
  (Ok true,
   World None ∅ ["1"]
     (menu_lines ++
      [Prompt "Choose an option (1-5): "; PrintStr "Exiting Program..."])).
Proof.
  intros w.
  assert (stdin w = " 5 " :: ["1"]) as H1 by reflexivity.
  assert (PyStr.strip " 5 " = "5") as H2 by reflexivity.
  destruct (menu_exits_on_five_only w) as [Hexit _].
  split; [exact H1|]. split; [exact H2|]. exact (Hexit _ _ H1 H2).
Defined.

(** X17.  A line at the menu that, stripped, is none of "1" to "5" (an
    empty line, a word, "6") is answered with "Invalid input, Try again.":
    the pass reads nothing more, leaves the file and the connections as
    they are, and goes on. *)
Theorem menu_unknown_choice (w : world) (choice : string) (rest : list string) :
  stdin w = choice :: rest ->
  PyStr.strip choice ∉ ["1"; "2"; "3"; "4"; "5"] ->
  menu_pass w =
  (Ok false,
   World (file w) (conns w) rest
     (stdout w ++ menu_lines ++
      [Prompt "Choose an option (1-5): "; PrintStr "Invalid input, Try again."])).
Proof.
  intros Hin Hnone.
  unfold menu_pass, mbind at 1, py_bind at 1. rewrite print_menu_run.
  unfold mbind at 1, py_bind at 1.
  erewrite user_choice_run by (simpl; exact Hin).
  repeat match goal with
  | |- context [String.eqb (PyStr.strip choice) ?s] =>
      destruct (String.eqb_spec (PyStr.strip choice) s) as [Heq|_];
        [exfalso; apply Hnone; rewrite Heq; set_solver|]
  end.
  unfold mbind, py_bind, print, mret, py_ret. simpl. by rewrite <- !app_assoc.
Qed.

Lemma menu_unknown_choice_witness :
  let w := World None ∅ [""; "5"] [] in
  stdin w = "" :: ["5"] /\
  (PyStr.strip "" ∉ ["1"; "2"; "3"; "4"; "5"]) /\
  menu_pass w =
  (Ok false,
   World None ∅ ["5"]
     (menu_lines ++
      [Prompt "Choose an option (1-5): "; PrintStr "Invalid input, Try again."])).
Proof.
  intros w.
  assert (stdin w = "" :: ["5"]) as H1 by reflexivity.
  assert (PyStr.strip "" ∉ ["1"; "2"; "3"; "4"; "5"]) as H2.
  { intros H. repeat (apply elem_of_cons in H as [H|H]; [discriminate H|]).
    by apply elem_of_nil in H. }
  split; [exact H1|]. split; [exact H2|].
  exact (menu_unknown_choice w _ _ H1 H2).
Defined.



(** ** What holds along the whole of [main] *)

Section steps.
Context (R : relation world) `{!Reflexive R, !Transitive R}.

Lemma steps_in_ret {A} (a : A) : steps_in R (mret a).
Proof. intros w. simpl. reflexivity. Qed.

Lemma steps_in_bind {A B} (m : py A) (f : A -> py B) :
  steps_in R m -> (forall a, steps_in R (f a)) -> steps_in R (m ≫= f).
Proof.
  intros Hm Hf w. unfold mbind, py_bind. specialize (Hm w).
  destruct (m w) as [[a|e] w1]; simpl in *; [|done].
  specialize (Hf a w1). by etrans.
Qed.

Lemma steps_in_try {A} (body handler : py A) :
  steps_in R body -> steps_in R handler ->
  steps_in R (try_except_ValueError body handler).
Proof.
  intros Hb Hh w. unfold try_except_ValueError. specialize (Hb w).
  destruct (body w) as [[a|[]] w1]; simpl in *; try done.
  specialize (Hh w1). by etrans.
Qed.

Lemma steps_in_int (s : string) : steps_in R (int s).
Proof. intros w. unfold int. destruct (PyStr.py_int s); simpl; reflexivity. Qed.

Context (Hprint : forall s, steps_in R (print s)).
Context (Hinput : forall p, steps_in R (input p)).
Context (Hperform : forall c, steps_in R (perform c)).

Lemma steps_in_menu_pass : steps_in R menu_pass.
Proof.
  unfold menu_pass, print_menu, user_choice, input_strip.
  repeat first
    [ apply (Hperform (Create _ _ _))
    | apply (Hperform ReadAll)
    | apply (Hperform (Update _ _ _ _))
    | apply (Hperform (Delete _))
    | apply Hprint
    | apply Hinput
    | apply steps_in_int
    | apply steps_in_ret
    | apply steps_in_try
    | apply steps_in_bind; [|intros ?]
    | match goal with |- steps_in _ (if ?b then _ else _) => destruct b end
    | match goal with |- steps_in _ (let _ := _ in _) => cbv zeta end ].
Qed.

End steps.

Lemma steps_in_main_loop (R : relation world) `{!Reflexive R, !Transitive R}
    (fuel : nat) (w w' : world) (r : result pyval) :
  steps_in R menu_pass ->
  main_loop fuel w = Some (r, w') -> R w w'.
Proof.
  intros Hmenu. revert w. induction fuel as [|fuel IH]; intros w; [done|]. simpl.
  pose proof (Hmenu w) as Hpass.
  destruct (menu_pass w) as [[[|]|e] w1]; simpl in Hpass.
  - by intros [= _ <-].
  - intros Hloop. etrans; [done|by apply IH].
  - by intros [= _ <-].
Qed.

#[local] Instance input_left_refl : Reflexive input_left.
Proof. intros w. unfold input_left. reflexivity. Qed.

#[local] Instance input_left_trans : Transitive input_left.
Proof. intros a b c Hab Hbc. unfold input_left in *. by etrans. Qed.

#[local] Instance keeps_refl (I : world -> Prop) : Reflexive (keeps I).
Proof. intros w Hw. exact Hw. Qed.

#[local] Instance keeps_trans (I : world -> Prop) : Transitive (keeps I).
Proof. intros a b c Hab Hbc Ha. by apply Hbc, Hab. Qed.

Lemma perform_stdin (c : call) (w : world) : stdin (perform c w).2 = stdin w.
Proof.
  destruct c as [n g e| |k n g e|k]; simpl.
  - rewrite add_student_run. cbv zeta. destruct (file w); [|done].
    by destruct (run _ _) as [[d' rs]|err].
  - rewrite view_students_db_run. by destruct (file w).
  - rewrite update_student_run. cbv zeta. destruct (file w); [|done].
    by destruct (run _ _) as [[d' rs]|err].
  - rewrite delete_student_run. cbv zeta. destruct (file w); [|done].
    by destruct (run _ _) as [[d' rs]|err].
Qed.

Lemma input_left_menu_pass : steps_in input_left menu_pass.
Proof.
  apply steps_in_menu_pass; try apply _.
  - intros s w. unfold input_left. simpl. reflexivity.
  - intros p w. unfold input_left, input.
    destruct (stdin w) as [|l ls]; simpl; [reflexivity|]. by apply suffix_cons_r.
  - intros c w. unfold input_left. rewrite perform_stdin. reflexivity.
Qed.

Lemma main_loop_exit (fuel : nat) (w w' : world) (v : pyval) :
  main_loop fuel w = Some (Ok v, w') ->
  exists choice,
    choice ∈ stdin w /\ PyStr.strip choice = "5" /\
    last (stdout w') = Some (PrintStr "Exiting Program...").
Proof.
  revert w. induction fuel as [|fuel IH]; intros w; [done|]. simpl.
  pose proof (input_left_menu_pass w) as Hleft.
  destruct (menu_pass w) as [[[|]|e] w1] eqn:Hpass; simpl in Hleft; [| |done].
  - intros [= _ <-].
    destruct (menu_pass_done w w1 Hpass) as (choice & rest & Hin & Hfive & ->).
    exists choice. rewrite Hin. split; [by left|]. split; [done|].
    cbn [stdout].
    change [Prompt "Choose an option (1-5): "; PrintStr "Exiting Program..."]
      with ([Prompt "Choose an option (1-5): "] ++ [PrintStr "Exiting Program..."]).
    by rewrite !app_assoc, last_snoc.
  - intros Hloop. destruct (IH w1 Hloop) as (choice & Hc & Hfive & Hlast).
    exists choice. split; [|done]. by eapply elem_of_suffix.
Qed.

(** X19.  [main] returns normally only through option 5: if it returns,
    one of the lines typed was "5" up to surrounding whitespace and the
    last thing written is "Exiting Program...".  So on input without such
    a line [main] does not return normally. *)
Theorem main_returns_only_through_exit (w w' : world) (v : pyval) :
  main w = Some (Ok v, w') ->
  exists choice,
    choice ∈ stdin w /\ PyStr.strip choice = "5" /\
    last (stdout w') = Some (PrintStr "Exiting Program...").
Proof.
  unfold main. rewrite setup_table_run. intros Hloop.
  by apply main_loop_exit in Hloop.
Qed.

Lemma main_returns_only_through_exit_witness :
  let w := World None ∅ ["2"; " 5"; "1"] [] in
  main w =
    Some (Ok PyNone,
          World (Some (Table students_columns ∅)) ∅ ["1"]
            (menu_lines ++ [Prompt "Choose an option (1-5): "] ++ menu_lines ++
             [Prompt "Choose an option (1-5): "; PrintStr "Exiting Program..."])) /\
  exists choice, choice ∈ stdin w /\ PyStr.strip choice = "5".
Proof.
  intros w.
  assert (main w =
    Some (Ok PyNone,
          World (Some (Table students_columns ∅)) ∅ ["1"]
            (menu_lines ++ [Prompt "Choose an option (1-5): "] ++ menu_lines ++
             [Prompt "Choose an option (1-5): "; PrintStr "Exiting Program..."])))
    as H1 by (vm_compute; reflexivity).
  destruct (main_returns_only_through_exit w _ _ H1) as (choice & Hc & Hfive & _).
  split; [exact H1|]. exists choice. split; [exact Hc|exact Hfive].
Defined.

Lemma perform_schema (c : call) (w : world) :
  schema_exists w -> schema_exists (perform c w).2.
Proof.
  intros Hs. unfold schema_exists in *.
  destruct (perform_file c w) as [->|(st & t & d' & rs & Ht & Hrun & ->)]; [done|].
  destruct (run_effect st t d' rs Hrun) as (t' & -> & _). by eexists.
Qed.

Lemma keeps_menu_pass (I : world -> Prop) :
  (forall f cs i o i' o', I (World f cs i o) -> I (World f cs i' o')) ->
  (forall c w, I w -> I (perform c w).2) ->
  steps_in (keeps I) menu_pass.
Proof.
  intros Hterm Hperform. apply steps_in_menu_pass; try apply _.
  - intros s w Hw. unfold print. simpl. destruct w. by eapply Hterm.
  - intros p w Hw. unfold input. destruct w as [f cs i o]. simpl in *.
    destruct i; simpl; by eapply Hterm.
  - intros c w Hw. by apply Hperform.
Qed.

(** X20.  Whatever is typed and however [main] ends, the table exists
    afterwards, and a well-formed store is well-formed afterwards with no
    NULL field in any record if there was none before.  On a new file this
    gives: after [main] the file holds the table of [setup_table], with
    64-bit ids and every field of every record populated. *)
Theorem main_keeps_store_sound (w w' : world) (r : result pyval) :
  main w = Some (r, w') ->
  schema_exists w' /\
  (well_formed w -> well_formed w') /\
  (well_formed w -> all_populated w -> all_populated w') /\
  (file w = None -> well_formed w' /\ all_populated w').
Proof.
  unfold main. rewrite setup_table_run.
  set (w0 := set_file _ w). intros Hloop.
  assert (schema_exists w0) as Hs0 by (by eexists).
  assert (well_formed w -> well_formed w0) as Hwf0.
  { unfold well_formed, w0. simpl. by destruct (file w). }
  assert (all_populated w -> all_populated w0) as Hpop0.
  { unfold all_populated, persisted, w0. simpl. by destruct (file w). }
  assert (schema_exists w') as Hs'.
  { eapply (steps_in_main_loop (keeps schema_exists)); [|done|done].
    apply (keeps_menu_pass schema_exists); [done|apply perform_schema]. }
  assert (well_formed w0 -> well_formed w') as Hwf'.
  { eapply (steps_in_main_loop (keeps well_formed)); [|done].
    apply (keeps_menu_pass well_formed); [done|].
    intros c w1. apply well_formed_perform. }
  assert (well_formed w0 -> all_populated w0 -> all_populated w') as Hpop'.
  { intros Hwf Hpop.
    eapply (steps_in_main_loop (keeps (fun x => well_formed x /\ all_populated x)));
      [|done|done].
    apply (keeps_menu_pass (fun x => well_formed x /\ all_populated x));
      [done|].
    intros c w1 [Hwf1 Hpop1].
    split; [by apply well_formed_perform|by apply all_populated_perform]. }
  split; [done|]. split; [by auto|]. split; [by auto|].
  intros Hnone.
  assert (well_formed w) as Hwf by (unfold well_formed; by rewrite Hnone).
  assert (all_populated w) as Hpop.
  { unfold all_populated, persisted. rewrite Hnone. apply map_Forall_empty. }
  split; by auto.
Qed.

Lemma main_keeps_store_sound_witness :
  let w := World None ∅ ["1"; "Ann"; "A"; "ann@x.com"; "4"; "7"] [] in
  exists r w',
    main w = Some (r, w') /\
    schema_exists w' /\ well_formed w' /\ all_populated w'.
Proof.
  intros w.
  destruct (main w) as [[r w']|] eqn:Hmain; [|vm_compute in Hmain; discriminate Hmain].
  destruct (main_keeps_store_sound w w' r Hmain) as (Hs & _ & _ & Hnew).
  destruct (Hnew eq_refl) as [Hwf Hpop].
  exists r, w'. split; [reflexivity|].
  split; [exact Hs|]. split; [exact Hwf|exact Hpop].
Defined.

Lemma tidy_ret {A} (a : A) : tidy (mret a).
Proof. by intros w. Qed.

Lemma tidy_bind {A B} (m : py A) (f : A -> py B) :
  tidy m -> (forall a, tidy (f a)) -> tidy (m ≫= f).
Proof.
  intros Hm Hf w. unfold mbind, py_bind. specialize (Hm w).
  destruct (m w) as [[a|e] w1]; simpl in *; [|done].
  intros Hr. rewrite (Hf a w1 Hr). by apply Hm.
Qed.

Lemma tidy_try {A} (body handler : py A) :
  tidy body -> tidy handler -> tidy (try_except_ValueError body handler).
Proof.
  intros Hb Hh w. unfold try_except_ValueError. specialize (Hb w).
  destruct (body w) as [[a|[]] w1]; simpl in *; try done.
  intros Hr. rewrite (Hh w1 Hr). by apply Hb.
Qed.

Lemma tidy_print (s : string) : tidy (print s).
Proof. by intros w. Qed.

Lemma tidy_input (p : string) : tidy (input p).
Proof. intros w. unfold input. by destruct (stdin w). Qed.

Lemma tidy_int (s : string) : tidy (int s).
Proof. intros w. unfold int. by destruct (PyStr.py_int s). Qed.

(** The exceptions of the engine are not those of the terminal. *)
Lemma run_error (st : statement) (d : database) (err : exn) :
  run st d = Raise err -> from_terminal (Raise err : result pyval) = false.
Proof.
  assert (forall cols c v, store_field cols c v = Raise err ->
                           from_terminal (Raise err : result pyval) = false) as Hfield.
  { intros cols c v. unfold store_field. destruct (find _ _) as [col|]; [|by intros [= <-]].
    destruct (_ && _); [by intros [= <-]|done]. }
  assert (forall cols n g e, store_row cols n g e = Raise err ->
                             from_terminal (Raise err : result pyval) = false) as Hrow.
  { intros cols n g e. unfold store_row, mbind, result_bind.
    destruct (store_field cols "name" n) eqn:H1; [|intros [= <-]; by eapply Hfield].
    destruct (store_field cols "grade" g) eqn:H2; [|intros [= <-]; by eapply Hfield].
    destruct (store_field cols "email" e) eqn:H3; [|intros [= <-]; by eapply Hfield].
    done. }
  assert (forall v, bind_param v = Raise err ->
                    from_terminal (Raise err : result pyval) = false) as Hbind.
  { intros [| z |s]; simpl; [done| |done]. destruct (in_int64 z); [done|by intros [= <-]]. }
  destruct st as [cols|n g e| |n g e k|k], d as [t|]; simpl;
    unfold mbind, result_bind, no_such_table; try done; try (by intros [= <-]).
  - destruct (bind_param n) eqn:H1; [|intros [= <-]; by eapply Hbind].
    destruct (bind_param g) eqn:H2; [|intros [= <-]; by eapply Hbind].
    destruct (bind_param e) eqn:H3; [|intros [= <-]; by eapply Hbind].
    destruct (store_row _ _ _ _) eqn:H4; [|intros [= <-]; by eapply Hrow].
    unfold next_rowid. destruct (max_rowid _); [|done].
    destruct (_ <? _); [done|by intros [= <-]].
  - destruct (bind_param n) eqn:H1; [|intros [= <-]; by eapply Hbind].
    destruct (bind_param g) eqn:H2; [|intros [= <-]; by eapply Hbind].
    destruct (bind_param e) eqn:H3; [|intros [= <-]; by eapply Hbind].
    destruct (in_int64 k); [|by intros [= <-]].
    destruct (rows t !! k); [|done].
    destruct (store_row _ _ _ _) eqn:H4; [|intros [= <-]; by eapply Hrow].
    done.
  - destruct (in_int64 k); [done|by intros [= <-]].
Qed.

Lemma tidy_perform (c : call) : tidy (perform c).
Proof.
  intros w. destruct c as [n g e| |k n g e|k]; simpl.
  - rewrite add_student_run. cbv zeta. destruct (file w); [|done].
    destruct (run _ _) as [[d' rs]|err] eqn:Hrun; [done|].
    cbn [fst snd]. intros Hr. by rewrite (run_error _ _ _ Hrun) in Hr.
  - rewrite view_students_db_run. by destruct (file w).
  - rewrite update_student_run. cbv zeta. destruct (file w); [|done].
    destruct (run _ _) as [[d' rs]|err] eqn:Hrun; [done|].
    cbn [fst snd]. intros Hr. by rewrite (run_error _ _ _ Hrun) in Hr.
  - rewrite delete_student_run. cbv zeta. destruct (file w); [|done].
    destruct (run _ _) as [[d' rs]|err] eqn:Hrun; [done|].
    cbn [fst snd]. intros Hr. by rewrite (run_error _ _ _ Hrun) in Hr.
Qed.

Lemma tidy_menu_pass : tidy menu_pass.
Proof.
  unfold menu_pass, print_menu, user_choice, input_strip.
  repeat first
    [ apply (tidy_perform (Create _ _ _))
    | apply (tidy_perform ReadAll)
    | apply (tidy_perform (Update _ _ _ _))
    | apply (tidy_perform (Delete _))
    | apply tidy_print
    | apply tidy_input
    | apply tidy_int
    | apply tidy_ret
    | apply tidy_try
    | apply tidy_bind; [|intros ?]
    | match goal with |- tidy (if ?b then _ else _) => destruct b end
    | match goal with |- tidy (let _ := _ in _) => cbv zeta end ].
Qed.

Lemma tidy_main_loop (fuel : nat) (w w' : world) (r : result pyval) :
  main_loop fuel w = Some (r, w') ->
  from_terminal r = true -> conns w' = conns w.
Proof.
  revert w. induction fuel as [|fuel IH]; intros w; [done|]. simpl.
  pose proof (tidy_menu_pass w) as Hpass.
  destruct (menu_pass w) as [[[|]|e] w1]; simpl in Hpass.
  - intros [= _ <-] _. by apply Hpass.
  - intros Hloop Hr. rewrite (IH w1 Hloop Hr). by apply Hpass.
  - intros [= <- <-] Hr. by apply Hpass.
Qed.

(** X21.  Unless it is stopped by an exception of the store, [main] leaves
    no connection behind: when it returns, or ends in EOFError at the end
    of the input, the open connections are those from before the call. *)
Theorem main_closes_connections (w w' : world) (r : result pyval) :
  main w = Some (r, w') ->
  from_terminal r = true ->
  conns w' = conns w.
Proof.
  unfold main. rewrite setup_table_run. intros Hloop Hr.
  by rewrite (tidy_main_loop _ _ _ _ Hloop Hr).
Qed.

Lemma main_closes_connections_witness :
  let w := World None ∅ ["1"; "Ann"; "A"; "ann@x.com"; "3"; "x"; "2"] [] in
  exists w', main w = Some (Raise EOFError, w') /\ conns w' = conns w.
Proof.
  intros w.
  destruct (main w) as [[r w']|] eqn:Hmain; [|vm_compute in Hmain; discriminate Hmain].
  assert (r = Raise EOFError) as ->
    by (vm_compute in Hmain; injection Hmain as <- _; reflexivity).
  exists w'. split; [reflexivity|].
  exact (main_closes_connections w w' _ Hmain eq_refl).
Defined.

Lemma main_loop_result (fuel : nat) (w w' : world) (r : result pyval) :
  main_loop fuel w = Some (r, w') -> r = Ok PyNone \/ exists e, r = Raise e.
Proof.
  revert w. induction fuel as [|fuel IH]; intros w; [done|]. simpl.
  destruct (menu_pass w) as [[[|]|e] w1].
  - intros [= <- _]. by left.
  - apply IH.
  - intros [= <- _]. right. by eexists.
Qed.

(** X22.  [main] comes to an end on every input: it returns [None] or ends
    in an exception, never loops on.  The lines it has not read are the
    last lines of the input it was given: lines are read in order, none is
    read twice or put back. *)
Theorem main_ends (w : world) :
  exists r w',
    main w = Some (r, w') /\
    (r = Ok PyNone \/ exists e, r = Raise e) /\
    stdin w' `suffix_of` stdin w.
Proof.
  destruct (main_returns w) as [[r w'] Hmain]. exists r, w'.
  split; [done|]. revert Hmain. unfold main. rewrite setup_table_run.
  intros Hloop. split; [by eapply main_loop_result|].
  by apply (steps_in_main_loop input_left _ _ _ _ input_left_menu_pass) in Hloop.
Qed.

Transparent add_student view_students_db update_student delete_student.
